(** * scanapi: the request node ([scanapi/tree/request_node.py])

    A shallow embedding of [RequestNode]: its configuration fragment, the
    properties that resolve the HTTP method, the URL path, the headers, the
    params and the body, and [run], which drives the transport call, the two
    updates of the endpoint's variables, the tests and the redaction.

    Python values are embedded as the inductive [value]; a [dict] is the
    insertion-ordered list of its items.  Exceptions are the [Raise] outcome
    of a small state-and-exception monad whose state survives a raise, as
    an object mutated before an exception does in Python.  Text is ASCII:
    [upper] moves the letters a-z and leaves every other character alone. *)

From Stdlib Require Import List String Ascii ZArith Bool Lia PeanoNat.
From Stdlib Require Import DecimalString.
Import ListNotations.
Open Scope string_scope.
Open Scope list_scope.

Set Implicit Arguments.
Set Warnings "-register-all".

(** ** Python values of a configuration fragment *)

Inductive value : Type :=
| VNone
| VBool (b : bool)
| VInt (z : Z)
| VStr (s : string)
| VList (l : list value)
| VDict (d : list (string * value)).

Definition dict := list (string * value).

Definition keys (d : dict) : list string := map fst d.

(** [d.get(k)]: the value of the first item whose key is [k]. *)
Fixpoint dict_get (k : string) (d : dict) : option value :=
  match d with
  | [] => None
  | (k', v) :: d' => if String.eqb k k' then Some v else dict_get k d'
  end.

(** [d.get(k, default)] *)
Definition dict_get_default (d : dict) (k : string) (default : value) : value :=
  match dict_get k d with
  | Some v => v
  | None => default
  end.

(** [d[k] = v]: an existing key keeps its place, a new key goes last. *)
Fixpoint dict_set (k : string) (v : value) (d : dict) : dict :=
  match d with
  | [] => [(k, v)]
  | (k', v') :: d' =>
      if String.eqb k k' then (k, v) :: d' else (k', v') :: dict_set k v d'
  end.

(** [d.update(items)]: the items are stored one after the other. *)
Definition dict_update (d : dict) (items : list (string * value)) : dict :=
  fold_left (fun acc kv => dict_set (fst kv) (snd kv) acc) items d.

(** [{**a}]: the dict built from the items of [a]. *)
Definition py_dict (a : list (string * value)) : dict := dict_update [] a.

(** [{**a, **b}] *)
Definition dict_unpack2 (a b : dict) : dict := dict_update (py_dict a) b.

(** ** Strings *)

Definition is_lower (c : ascii) : bool :=
  (Nat.leb 97 (nat_of_ascii c) && Nat.leb (nat_of_ascii c) 122)%bool.

Definition upper_char (c : ascii) : ascii :=
  if is_lower c then ascii_of_nat (nat_of_ascii c - 32) else c.

(** [s.upper()] for ASCII text: the letters a-z move to A-Z and every
    other ASCII character stays, which is what [str.upper] does to a string
    of ASCII characters.  On a character outside ASCII [str.upper] follows
    the Unicode case mapping, which is not modelled: a statement that
    depends on what [upper] returns for a configured string is made for
    the strings that [is_ascii] accepts. *)
Fixpoint upper (s : string) : string :=
  match s with
  | EmptyString => EmptyString
  | String c s' => String (upper_char c) (upper s')
  end.

(** [x in t] for a tuple of strings. *)
Definition str_in (x : string) (t : list string) : bool :=
  existsb (String.eqb x) t.

(** ** Exceptions and outcomes *)

Inductive exn : Type :=
| HTTPMethodNotAllowedError (method : string) (allowed : list string)
| ValidationError (offending : list string) (scope : string)
| AttributeError
| TypeError
| TemplateResolutionError (name : string)
| TransportError (msg : string).

Inductive result (A : Type) : Type :=
| Ok (a : A)
| Raise (e : exn).

Arguments Ok {A} a.
Arguments Raise {A} e.

(** ** Keys of the configuration tree ([scanapi/tree/tree_keys.py]) *)

(** Modelled from the spec: the key constants of [scanapi.tree.tree_keys],
    which is not among the sources; section 6 lists the request node's keys
    as body, headers, method, name, params, path, tests and vars. *)
Definition BODY_KEY := "body".
Definition HEADERS_KEY := "headers".
Definition METHOD_KEY := "method".
Definition NAME_KEY := "name".
Definition PARAMS_KEY := "params".
Definition PATH_KEY := "path".
Definition TESTS_KEY := "tests".
Definition VARS_KEY := "vars".

(** ** The endpoint a request belongs to *)

(** [EndpointNode] is not among the sources.  A request reads three of its
    properties, taken here as the values they return; the fourth,
    [endpoint.vars], is the evaluator kept in the world of the monad below. *)
Record EndpointNode : Type := {
  ep_path : string;
  ep_headers : dict;
  ep_params : dict
}.

(** ** The request node *)

Record RequestNode : Type := {
  spec : dict;
  endpoint : EndpointNode
}.

Definition SCOPE := "request".

Definition ALLOWED_KEYS : list string :=
  [BODY_KEY; HEADERS_KEY; METHOD_KEY; NAME_KEY; PARAMS_KEY; PATH_KEY;
   TESTS_KEY; VARS_KEY].

Definition ALLOWED_HTTP_METHODS : list string :=
  ["GET"; "POST"; "PUT"; "PATCH"; "DELETE"].

Definition REQUIRED_KEYS : list string := [NAME_KEY].

(** [http_method]: the property reads no state, so it is a plain function
    to an outcome.  A configured method that is not a string has no
    [upper] attribute. *)
Definition http_method (self : RequestNode) : result string :=
  match dict_get_default (spec self) METHOD_KEY (VStr "get") with
  | VStr m =>
      let method := upper m in
      if negb (str_in method ALLOWED_HTTP_METHODS)
      then Raise (HTTPMethodNotAllowedError method ALLOWED_HTTP_METHODS)
      else Ok method
  | _ => Raise AttributeError
  end.

(** The eager part of [__init__] is the key validation alone. *)

(** Modelled from the spec: [validate_keys] of [scanapi.utils], which is not
    among the sources.  Section 4.3: the key set must be a subset of the
    allowed keys and a superset of the required keys, and the validation
    error names the offending keys and the scope label.  The offending keys
    are the keys that are not allowed, followed by the required keys that
    are missing. *)
Definition validate_keys (ks allowed required : list string) (scope : string)
  : result unit :=
  let unknown := filter (fun k => negb (str_in k allowed)) ks in
  let missing := filter (fun k => negb (str_in k ks)) required in
  match unknown ++ missing with
  | [] => Ok tt
  | offending => Raise (ValidationError offending scope)
  end.

Definition _validate (self : RequestNode) : result unit :=
  validate_keys (keys (spec self)) ALLOWED_KEYS REQUIRED_KEYS SCOPE.

(** [RequestNode(spec, endpoint)] *)
Definition RequestNode_init (spec0 : dict) (endpoint0 : EndpointNode)
  : result RequestNode :=
  let self := {| spec := spec0; endpoint := endpoint0 |} in
  match _validate self with
  | Ok _ => Ok self
  | Raise e => Raise e
  end.

(** [self[item]] is [self.spec[item]]: the subscript of a mapping raises
    KeyError for a key the mapping lacks, the [None] of the option. *)
Definition __getitem__ (self : RequestNode) (item : string) : option value :=
  dict_get item (spec self).

Definition name (self : RequestNode) : option value :=
  __getitem__ self NAME_KEY.

(** ** [str] of a configuration value *)

Definition hex_digit (n : nat) : ascii :=
  if Nat.ltb n 10 then ascii_of_nat (48 + n) else ascii_of_nat (87 + n).

Definition contains_char (c : ascii) (s : string) : bool :=
  existsb (Ascii.eqb c) (list_ascii_of_string s).

(** One character of [repr(s)] under the quote [q]. *)
Definition repr_char (q c : ascii) : string :=
  let n := nat_of_ascii c in
  if (Ascii.eqb c q || Ascii.eqb c "\")%bool then String "\" (String c "")
  else if Nat.eqb n 9 then "\t"
  else if Nat.eqb n 10 then "\n"
  else if Nat.eqb n 13 then "\r"
  else if (Nat.ltb n 32 || Nat.eqb n 127)%bool
       then String "\" (String "x" (String (hex_digit (n / 16))
                                      (String (hex_digit (n mod 16)) "")))
  else String c "".

Definition dquote : ascii := ascii_of_nat 34.
Definition squote : ascii := ascii_of_nat 39.

(** [repr(s)] of a string: double quotes only when the text has a single
    quote and no double quote. *)
Definition repr_str (s : string) : string :=
  let q := if (contains_char squote s && negb (contains_char dquote s))%bool
           then dquote else squote in
  String q (String.concat "" (map (repr_char q) (list_ascii_of_string s))
            ++ String q "")%string.

(** [str(z)] of an integer. *)
Definition str_int (z : Z) : string := NilZero.string_of_int (Z.to_int z).

(** [repr(v)]; a list and a dict print their elements with [repr]. *)
Fixpoint py_repr (v : value) : string :=
  match v with
  | VNone => "None"
  | VBool true => "True"
  | VBool false => "False"
  | VInt z => str_int z
  | VStr s => repr_str s
  | VList l => ("[" ++ String.concat ", " (map py_repr l) ++ "]")%string
  | VDict d =>
      ("{" ++ String.concat ", "
                (map (fun kv => repr_str (fst kv) ++ ": " ++ py_repr (snd kv)) d)
           ++ "}")%string
  end.

(** [str(v)]: a string is itself, everything else prints as its [repr]. *)
Definition py_str (v : value) : string :=
  match v with
  | VStr s => s
  | _ => py_repr v
  end.

(** ** Joining URLs *)

Definition slash : ascii := "/"%char.

(** [s.lstrip("/")] *)
Fixpoint lstrip_slash (s : string) : string :=
  match s with
  | String c s' => if Ascii.eqb c slash then lstrip_slash s' else s
  | EmptyString => EmptyString
  end.

(** [s.rstrip("/")] *)
Fixpoint rstrip_slash (s : string) : string :=
  match s with
  | EmptyString => EmptyString
  | String c s' =>
      match rstrip_slash s' with
      | EmptyString => if Ascii.eqb c slash then EmptyString else String c EmptyString
      | r => String c r
      end
  end.

(** Modelled from the spec: [join_urls] of [scanapi.utils], which is not
    among the sources.  Section 6: the effective path is the base and the
    suffix concatenated with exactly one separating slash, regardless of
    existing slashes on either side. *)
Definition join_urls (first_url second_url : string) : string :=
  (rstrip_slash first_url ++ "/" ++ lstrip_slash second_url)%string.

(** ** Test results ([scanapi/test_status.py], [scanapi/tree/testing_node.py]) *)

(** Modelled from the spec: the three statuses of section 3; the module
    [scanapi.test_status] is not among the sources. *)
Inductive TestStatus : Type := PASSED | FAILED | ERROR.

Definition TestStatus_eqb (a b : TestStatus) : bool :=
  match a, b with
  | PASSED, PASSED | FAILED, FAILED | ERROR, ERROR => true
  | _, _ => false
  end.

(** Modelled from the spec: the test result of section 3, which
    [TestingNode.run] returns; failure detail only for FAILED and ERROR. *)
Record test_result : Type := {
  test_name : string;
  status : TestStatus;
  failure : option string
}.

(** [for x in v]: the elements a configuration value yields when iterated,
    [TypeError] for a value that is not iterable. *)
Definition py_iter (v : value) : result (list value) :=
  match v with
  | VList l => Ok l
  | VDict d => Ok (map VStr (keys d))
  | VStr s => Ok (map (fun c => VStr (String c "")) (list_ascii_of_string s))
  | _ => Raise TypeError
  end.

(** [{**a, **v}] where [v] comes from the configuration: only a mapping can
    be unpacked. *)
Definition unpack_onto (a : dict) (v : value) : result dict :=
  match v with
  | VDict b => Ok (dict_unpack2 a b)
  | _ => Raise TypeError
  end.

(** ** The collaborators of a request *)

(** What [run] calls and the sources do not define: the endpoint's variable
    evaluator ([SpecEvaluator.evaluate] and [SpecEvaluator.update]), the
    transport ([requests.request]), the testing nodes ([TestingNode(spec,
    request).run()]) and the redaction ([hide_sensitive_info]).  Each one
    acts on a [world] that holds whatever it reads and mutates: the
    evaluator's registry, the response objects, the network.  A [Response]
    is a reference to a response object of the world, so the object bound
    in the registry, the one handed to the redaction and the one of the
    result bundle are one object. *)
Class Collaborators : Type := {
  world : Type;
  Response : Type;
  vars_evaluate : value -> world -> result value * world;
  vars_update :
    value -> list (string * Response) -> bool -> world -> result unit * world;
  requests_request :
    string -> value -> value -> value -> value -> bool -> world ->
    result Response * world;
  testing_node_run : value -> RequestNode -> world -> result test_result * world;
  hide_sensitive_info : Response -> world -> result unit * world
}.

Section Request.

Context {C : Collaborators}.

(** The calls [run] makes on its collaborators, in the order it makes
    them.  The log is kept by the embedding, out of the collaborators'
    reach. *)
Inductive event : Type :=
| EvEvaluate (element : value)
| EvLogInfo (method : string) (url : value)
| EvUpdate (vars : value) (extras : list (string * Response)) (preevaluate : bool)
| EvRequest (method : string) (url headers params json : value)
            (allow_redirects : bool)
| EvTest (test_spec : value)
| EvHide (response : Response).

Record state : Type := {
  st_world : world;
  st_log : list event
}.

(** State and exceptions: a raise keeps the state reached so far. *)
Definition M (A : Type) : Type := state -> result A * state.

Definition ret {A : Type} (a : A) : M A := fun s => (Ok a, s).

Definition bind {A B : Type} (m : M A) (f : A -> M B) : M B :=
  fun s =>
    match m s with
    | (Ok a, s') => f a s'
    | (Raise e, s') => (Raise e, s')
    end.

Definition lift_result {A : Type} (r : result A) : M A := fun s => (r, s).

Definition emit (e : event) : M unit :=
  fun s => (Ok tt, {| st_world := st_world s; st_log := st_log s ++ [e] |}).

Definition call {A : Type} (f : world -> result A * world) : M A :=
  fun s =>
    let (r, w) := f (st_world s) in
    (r, {| st_world := w; st_log := st_log s |}).

Notation "x <- m ;; k" := (bind m (fun x => k))
  (at level 61, m at next level, right associativity).
Notation "m ;;; k" := (bind m (fun _ => k))
  (at level 61, right associativity).

(** [self.endpoint.vars.evaluate(element)] *)
Definition evaluate (element : value) : M value :=
  emit (EvEvaluate element) ;;; call (vars_evaluate element).

(** [self.endpoint.vars.update(vars, extras=extras, preevaluate=preevaluate)] *)
Definition update (vars : value) (extras : list (string * Response))
  (preevaluate : bool) : M unit :=
  emit (EvUpdate vars extras preevaluate) ;;;
  call (vars_update vars extras preevaluate).

(** [logger.info("Making request %s %s", method, url)] *)
Definition logger_info (method : string) (url : value) : M unit :=
  emit (EvLogInfo method url).

Definition full_url_path (self : RequestNode) : M value :=
  let base_path := ep_path (endpoint self) in
  let path := py_str (dict_get_default (spec self) PATH_KEY (VStr "")) in
  let full_url := join_urls base_path path in
  evaluate (VStr full_url).

Definition headers (self : RequestNode) : M value :=
  let endpoint_headers := ep_headers (endpoint self) in
  let headers := dict_get_default (spec self) HEADERS_KEY (VDict []) in
  merged <- lift_result (unpack_onto endpoint_headers headers) ;;
  evaluate (VDict merged).

Definition params (self : RequestNode) : M value :=
  let endpoint_params := ep_params (endpoint self) in
  let params := dict_get_default (spec self) PARAMS_KEY (VDict []) in
  merged <- lift_result (unpack_onto endpoint_params params) ;;
  evaluate (VDict merged).

Definition body (self : RequestNode) : M value :=
  let body := dict_get_default (spec self) BODY_KEY VNone in
  evaluate body.

(** The generator [tests] builds one testing node at a time and
    [_run_tests] runs it before the next is built: [run_each] is that
    loop over the iterated test specifications. *)
Fixpoint run_each (self : RequestNode) (specs : list value)
  : M (list test_result) :=
  match specs with
  | [] => ret []
  | test_spec :: rest =>
      r <- (emit (EvTest test_spec) ;;; call (testing_node_run test_spec self)) ;;
      rs <- run_each self rest ;;
      ret (r :: rs)
  end.

Definition _run_tests (self : RequestNode) : M (list test_result) :=
  specs <- lift_result (py_iter (dict_get_default (spec self) "tests" (VList []))) ;;
  run_each self specs.

(** The dict [run] returns. *)
Record bundle : Type := {
  response : Response;
  tests_results : list test_result;
  no_failure : bool
}.

Definition run (self : RequestNode) : M bundle :=
  method <- lift_result (http_method self) ;;
  url <- full_url_path self ;;
  logger_info method url ;;;
  update (dict_get_default (spec self) VARS_KEY (VDict [])) [] false ;;;
  h <- headers self ;;
  p <- params self ;;
  b <- body self ;;
  response <- (emit (EvRequest method url h p b false) ;;;
               call (requests_request method url h p b false)) ;;
  update (dict_get_default (spec self) VARS_KEY (VDict []))
         [("response", response)] true ;;;
  tests_results <- _run_tests self ;;
  (emit (EvHide response) ;;; call (hide_sensitive_info response)) ;;;
  ret {| response := response;
         tests_results := tests_results;
         no_failure :=
           forallb (fun test_result =>
                      TestStatus_eqb (status test_result) PASSED)
                   tests_results |}.

(** [f"<{self.__class__.__name__} {self.full_url_path}>"]: the class is
    [RequestNode], and a formatted value is rendered by [str]. *)
Definition __repr__ (self : RequestNode) : M string :=
  url <- full_url_path self ;;
  ret ("<" ++ "RequestNode" ++ " " ++ py_str url ++ ">")%string.

End Request.

(** ** A reference instance of the collaborators *)

Module Reference.

(** A response object: status code, headers and decoded body. *)
Record response_obj : Type := {
  status_code : Z;
  resp_headers : dict;
  resp_body : value
}.

(** What a name of the namespace is bound to: a configuration value, or a
    response object of the heap (bound directly, by reference). *)
Inductive binding : Type :=
| Bound (v : value)
| BoundResponse (r : nat).

Record ref_world : Type := {
  registry : list (string * binding);
  heap : list response_obj
}.

Fixpoint registry_get (k : string) (reg : list (string * binding))
  : option binding :=
  match reg with
  | [] => None
  | (k', b) :: reg' => if String.eqb k k' then Some b else registry_get k reg'
  end.

Fixpoint registry_set (k : string) (b : binding) (reg : list (string * binding))
  : list (string * binding) :=
  match reg with
  | [] => [(k, b)]
  | (k', b') :: reg' =>
      if String.eqb k k' then (k, b) :: reg' else (k', b') :: registry_set k b reg'
  end.

Definition registry_update (reg : list (string * binding))
  (items : list (string * binding)) : list (string * binding) :=
  fold_left (fun acc kb => registry_set (fst kb) (snd kb) acc) items reg.

(** A response object seen as a structured value. *)
Definition response_value (o : response_obj) : value :=
  VDict [("status_code", VInt (status_code o));
         ("headers", VDict (resp_headers o));
         ("body", resp_body o)].

(** A template is literal text and placeholders; a placeholder is written
    with a dollar sign and braces around a dotted path. *)
Inductive fragment : Type :=
| Lit (text : string)
| Hole (expr : string).

Definition lit (acc : string) : list fragment :=
  match acc with
  | EmptyString => []
  | _ => [Lit acc]
  end.

Definition snoc (acc : string) (c : ascii) : string :=
  (acc ++ String c "")%string.

(** Left-to-right scan; [in_hole] says whether a placeholder is open and
    [acc] is the text read since the last fragment. *)
Fixpoint scan (in_hole : bool) (acc : string) (s : string) : list fragment :=
  match s with
  | EmptyString => if in_hole then [Lit ("${" ++ acc)%string] else lit acc
  | String c rest =>
      if in_hole then
        if Ascii.eqb c "}" then Hole acc :: scan false "" rest
        else scan true (snoc acc c) rest
      else
        match rest with
        | String c' rest' =>
            if (Ascii.eqb c "$" && Ascii.eqb c' "{")%bool
            then lit acc ++ scan true "" rest'
            else scan false (snoc acc c) rest
        | EmptyString => lit (snoc acc c)
        end
  end.

(** [s.split(sep)] for a one-character separator. *)
Fixpoint split_char (sep : ascii) (acc : string) (s : string) : list string :=
  match s with
  | EmptyString => [acc]
  | String c rest =>
      if Ascii.eqb c sep then acc :: split_char sep "" rest
      else split_char sep (snoc acc c) rest
  end.

Fixpoint descend (expr : string) (v : value) (segments : list string)
  : result value :=
  match segments with
  | [] => Ok v
  | seg :: rest =>
      match v with
      | VDict d =>
          match dict_get seg d with
          | Some v' => descend expr v' rest
          | None => Raise (TemplateResolutionError expr)
          end
      | _ => Raise (TemplateResolutionError expr)
      end
  end.

(** [namespace.lookup(expr)] for a dotted path: the first segment is a name
    of the namespace, the others walk into the structured value. *)
Definition lookup (w : ref_world) (expr : string) : result value :=
  match split_char "." "" expr with
  | [] => Raise (TemplateResolutionError expr)
  | name :: segments =>
      match registry_get name (registry w) with
      | Some (Bound v) => descend expr v segments
      | Some (BoundResponse r) =>
          match nth_error (heap w) r with
          | Some o => descend expr (response_value o) segments
          | None => Raise (TemplateResolutionError expr)
          end
      | None => Raise (TemplateResolutionError expr)
      end
  end.

Fixpoint render (w : ref_world) (fs : list fragment) : result string :=
  match fs with
  | [] => Ok EmptyString
  | Lit text :: fs' =>
      match render w fs' with
      | Ok s => Ok (text ++ s)%string
      | Raise e => Raise e
      end
  | Hole expr :: fs' =>
      match lookup w expr with
      | Ok v =>
          match render w fs' with
          | Ok s => Ok (py_str v ++ s)%string
          | Raise e => Raise e
          end
      | Raise e => Raise e
      end
  end.

(** A string that is exactly one placeholder gives the typed value; any
    other string gives text. *)
Definition evaluate_string (w : ref_world) (s : string) : result value :=
  match scan false "" s with
  | [Hole expr] => lookup w expr
  | fs =>
      match render w fs with
      | Ok s' => Ok (VStr s')
      | Raise e => Raise e
      end
  end.

(** Modelled from the spec: the Template Evaluator of section 4.2
    ([scanapi.evaluators], not among the sources).  Scalars pass through,
    strings are scanned left to right, mappings and sequences are
    evaluated element by element in order. *)
Fixpoint evaluate_value (w : ref_world) (v : value) : result value :=
  match v with
  | VStr s => evaluate_string w s
  | VList l =>
      let fix each (l : list value) : result (list value) :=
        match l with
        | [] => Ok []
        | x :: xs =>
            match evaluate_value w x with
            | Ok x' =>
                match each xs with
                | Ok xs' => Ok (x' :: xs')
                | Raise e => Raise e
                end
            | Raise e => Raise e
            end
        end in
      match each l with
      | Ok l' => Ok (VList l')
      | Raise e => Raise e
      end
  | VDict d =>
      let fix each (d : list (string * value)) : result (list (string * value)) :=
        match d with
        | [] => Ok []
        | (k, x) :: xs =>
            match evaluate_value w x with
            | Ok x' =>
                match each xs with
                | Ok xs' => Ok ((k, x') :: xs')
                | Raise e => Raise e
                end
            | Raise e => Raise e
            end
        end in
      match each d with
      | Ok d' => Ok (VDict d')
      | Raise e => Raise e
      end
  | _ => Ok v
  end.

Definition ref_evaluate (v : value) (w : ref_world) : result value * ref_world :=
  (evaluate_value w v, w).

Fixpoint evaluate_items (w : ref_world) (d : dict) : result dict :=
  match d with
  | [] => Ok []
  | (k, x) :: xs =>
      match evaluate_value w x with
      | Ok x' =>
          match evaluate_items w xs with
          | Ok xs' => Ok ((k, x') :: xs')
          | Raise e => Raise e
          end
      | Raise e => Raise e
      end
  end.

Definition bound_items (d : dict) : list (string * binding) :=
  map (fun kv => (fst kv, Bound (snd kv))) d.

Definition bound_extras (extras : list (string * nat)) : list (string * binding) :=
  map (fun kr => (fst kr, BoundResponse (snd kr))) extras.

(** Modelled from the spec: [update] of section 4.1.  The extras are bound
    directly; with [preevaluate] every value of the bindings is evaluated
    against the namespace as it stands before the merge, without it the
    raw values are stored; the merge overwrites, the last of two equal
    names winning. *)
Definition ref_update (vars : value) (extras : list (string * nat))
  (preevaluate : bool) (w : ref_world) : result unit * ref_world :=
  match vars with
  | VDict bindings =>
      let w1 := {| registry := registry_update (registry w) (bound_extras extras);
                   heap := heap w |} in
      if preevaluate then
        match evaluate_items w1 bindings with
        | Ok values =>
            (Ok tt, {| registry := registry_update (registry w1) (bound_items values);
                       heap := heap w1 |})
        | Raise e => (Raise e, w1)
        end
      else
        (Ok tt, {| registry := registry_update (registry w1) (bound_items bindings);
                   heap := heap w1 |})
  | _ => (Raise TypeError, w)
  end.

(** The transport is a black box: [serve] answers a request with a
    response object or fails.  The response object is allocated in the
    heap and returned by reference. *)
Definition transport : Type :=
  string -> value -> value -> value -> value -> bool -> result response_obj.

Definition ref_request (serve : transport) (method : string)
  (url hs ps json : value) (allow_redirects : bool) (w : ref_world)
  : result nat * ref_world :=
  match serve method url hs ps json allow_redirects with
  | Ok o => (Ok (List.length (heap w)),
             {| registry := registry w; heap := heap w ++ [o] |})
  | Raise e => (Raise e, w)
  end.

(** [prefix ++ sep ++ suffix = s] for the first occurrence of [sep]. *)
Fixpoint split_once (sep : string) (acc : string) (s : string)
  : option (string * string) :=
  if String.prefix sep s
  then Some (acc, String.substring (String.length sep)
                    (String.length s - String.length sep) s)
  else match s with
       | EmptyString => None
       | String c rest => split_once sep (snoc acc c) rest
       end.

Definition error_message (e : exn) : string :=
  match e with
  | TemplateResolutionError name => ("undefined: " ++ name)%string
  | _ => "error"
  end.

(** Modelled from the spec: the Test Evaluator of section 4.5
    ([scanapi.tree.testing_node], not among the sources).  The assertion is
    a template that evaluates to a boolean, or two templates around a
    double equals sign whose evaluations are compared.  True gives PASSED,
    false gives FAILED with the assertion text as detail, an error of the
    evaluation gives ERROR with its message; an assertion never raises.
    A test specification without a name or an assertion is a
    configuration error. *)
Definition ref_test (test_spec : value) (request : RequestNode) (w : ref_world)
  : result test_result * ref_world :=
  match test_spec with
  | VDict d =>
      match dict_get "name" d, dict_get "assert" d with
      | Some (VStr name), Some (VStr assertion) =>
          let outcome :=
            match split_once " == " "" assertion with
            | Some (l, r) =>
                match evaluate_string w l, evaluate_string w r with
                | Ok a, Ok b => Ok (String.eqb (py_repr a) (py_repr b))
                | Raise e, _ => Raise e
                | _, Raise e => Raise e
                end
            | None =>
                match evaluate_string w assertion with
                | Ok (VBool b) => Ok b
                | Ok _ => Raise TypeError
                | Raise e => Raise e
                end
            end in
          (Ok match outcome with
              | Ok true =>
                  {| test_name := name; status := PASSED; failure := None |}
              | Ok false =>
                  {| test_name := name; status := FAILED;
                     failure := Some assertion |}
              | Raise e =>
                  {| test_name := name; status := ERROR;
                     failure := Some (error_message e) |}
              end, w)
      | _, _ => (Raise (ValidationError ["name"; "assert"] "test"), w)
      end
  | _ => (Raise TypeError, w)
  end.

Definition mask_fields (sensitive : list string) (mask : string) (d : dict) : dict :=
  map (fun kv => if str_in (fst kv) sensitive then (fst kv, VStr mask) else kv) d.

Definition mask_response (sensitive : list string) (mask : string)
  (o : response_obj) : response_obj :=
  {| status_code := status_code o;
     resp_headers := mask_fields sensitive mask (resp_headers o);
     resp_body := match resp_body o with
                  | VDict d => VDict (mask_fields sensitive mask d)
                  | v => v
                  end |}.

Fixpoint list_set {A : Type} (i : nat) (x : A) (l : list A) : list A :=
  match l, i with
  | [], _ => []
  | _ :: l', O => x :: l'
  | y :: l', S i' => y :: list_set i' x l'
  end.

(** Modelled from the spec: the redaction of section 4.6
    ([scanapi.hide_utils], not among the sources): every header and every
    body field whose name is in the configured set gets the mask token, in
    the response object itself. *)
Definition ref_hide (sensitive : list string) (mask : string) (r : nat)
  (w : ref_world) : result unit * ref_world :=
  match nth_error (heap w) r with
  | Some o =>
      (Ok tt, {| registry := registry w;
                 heap := list_set r (mask_response sensitive mask o) (heap w) |})
  | None => (Raise AttributeError, w)
  end.

(** The collaborators over a given transport, set of sensitive names and
    mask token. *)
Definition collaborators (serve : transport) (sensitive : list string)
  (mask : string) : Collaborators :=
  {| world := ref_world;
     Response := nat;
     vars_evaluate := ref_evaluate;
     vars_update := ref_update;
     requests_request := ref_request serve;
     testing_node_run := ref_test;
     hide_sensitive_info := ref_hide sensitive mask |}.

Definition empty_world : ref_world := {| registry := []; heap := [] |}.

End Reference.

(** ** A scenario on the reference instance *)

Module Demo.
Import Reference.

(** The server answers every request with status 200, an Authorization
    header and a body that carries an id. *)
Definition serve : transport :=
  fun _ _ _ _ _ _ =>
    Ok {| status_code := 200;
          resp_headers := [("Authorization", VStr "secret123")];
          resp_body := VDict [("id", VInt 7)] |}.

Definition C : Collaborators := collaborators serve ["Authorization"] "***".

Definition api : EndpointNode :=
  {| ep_path := "/api/";
     ep_headers := [("Accept", VStr "json"); ("X-Token", VStr "inherited")];
     ep_params := [("page", VInt 1)] |}.

Definition auth_test : value :=
  VDict [("name", VStr "auth");
         ("assert", VStr "${response.headers.Authorization} == secret123")].

Definition status_test : value :=
  VDict [("name", VStr "status");
         ("assert", VStr "${response.status_code} == 404")].

(** A request whose header refers to a variable of its own [vars], and
    whose second variable refers to the response. *)
Definition node : RequestNode :=
  {| spec := [("name", VStr "list users");
              ("path", VStr "/users");
              ("vars", VDict [("token", VStr "abc");
                              ("user_id", VStr "${response.body.id}")]);
              ("headers", VDict [("X-Token", VStr "${token}")]);
              ("tests", VList [auth_test; status_test])];
     endpoint := api |}.

Definition s0 : @state C := @Build_state C empty_world [].

(** What [run] returns for [node] from [s0]: the response is the object 0
    of the heap, the first test passed and the second failed. *)
Definition result0 : @bundle C :=
  @Build_bundle C 0
    [{| test_name := "auth"; status := PASSED; failure := None |};
     {| test_name := "status"; status := FAILED;
        failure := Some "${response.status_code} == 404" |}]
    false.

(** The namespace after the run. *)
Definition registry_end : list (string * binding) :=
  [("token", Bound (VStr "abc"));
   ("user_id", Bound (VInt 7));
   ("response", BoundResponse 0)].

(** The world after the run: the response object is masked. *)
Definition world_end : ref_world :=
  {| registry := registry_end;
     heap := [{| status_code := 200;
                 resp_headers := [("Authorization", VStr "***")];
                 resp_body := VDict [("id", VInt 7)] |}] |}.

(** The world the tests ran in: the response object as the server sent
    it. *)
Definition world_tests : ref_world :=
  {| registry := registry_end;
     heap := [{| status_code := 200;
                 resp_headers := [("Authorization", VStr "secret123")];
                 resp_body := VDict [("id", VInt 7)] |}] |}.

Definition configured : value :=
  VDict [("token", VStr "abc"); ("user_id", VStr "${response.body.id}")].

Definition sent_headers : value :=
  VDict [("Accept", VStr "json"); ("X-Token", VStr "abc")].

(** The calls of the run, in order. *)
Definition log_end : list (@event C) :=
  [EvEvaluate (VStr "/api/users");
   EvLogInfo "GET" (VStr "/api/users");
   EvUpdate configured [] false;
   EvEvaluate (VDict [("Accept", VStr "json"); ("X-Token", VStr "${token}")]);
   EvEvaluate (VDict [("page", VInt 1)]);
   EvEvaluate VNone;
   EvRequest "GET" (VStr "/api/users") sent_headers (VDict [("page", VInt 1)])
     VNone false;
   @EvUpdate C configured [("response", 0)] true;
   EvTest auth_test;
   EvTest status_test;
   @EvHide C 0].

Definition s_end : @state C := @Build_state C world_end log_end.

(** A node with no method, no vars and no tests. *)
Definition plain : RequestNode :=
  {| spec := [("name", VStr "ping")]; endpoint := api |}.

Definition plain_end : @state C :=
  @Build_state C
    {| registry := [("response", BoundResponse 0)];
       heap := [{| status_code := 200;
                   resp_headers := [("Authorization", VStr "***")];
                   resp_body := VDict [("id", VInt 7)] |}] |}
    [EvEvaluate (VStr "/api/");
     EvLogInfo "GET" (VStr "/api/");
     EvUpdate (VDict []) [] false;
     EvEvaluate (VDict [("Accept", VStr "json"); ("X-Token", VStr "inherited")]);
     EvEvaluate (VDict [("page", VInt 1)]);
     EvEvaluate VNone;
     EvRequest "GET" (VStr "/api/")
       (VDict [("Accept", VStr "json"); ("X-Token", VStr "inherited")])
       (VDict [("page", VInt 1)]) VNone false;
     @EvUpdate C (VDict []) [("response", 0)] true;
     @EvHide C 0].

Definition plain_result : @bundle C := @Build_bundle C 0 [] true.

End Demo.

(** ** Requests that do not run to the end *)

Module Cases.
Import Reference.

(** A server that cannot be reached. *)
Definition refuse : transport :=
  fun _ _ _ _ _ _ => Raise (TransportError "connection refused").

Definition C_down : Collaborators :=
  collaborators refuse ["Authorization"] "***".

Definition down0 : @state C_down := @Build_state C_down empty_world [].

(** A method that is not an HTTP method of the tool. *)
Definition fetch : RequestNode :=
  {| spec := [("name", VStr "fetch users"); ("method", VStr "fetch")];
     endpoint := Demo.api |}.

(** A [headers] key with no value under it. *)
Definition bare_headers : RequestNode :=
  {| spec := [("name", VStr "list users"); ("headers", VNone)];
     endpoint := Demo.api |}.

(** A [tests] key with no value under it. *)
Definition bare_tests : RequestNode :=
  {| spec := [("name", VStr "list users"); ("tests", VNone)];
     endpoint := Demo.api |}.

(** The second of three tests has no assertion. *)
Definition no_assertion : value := VDict [("name", VStr "missing")].

Definition broken_test : RequestNode :=
  {| spec := [("name", VStr "list users");
              ("tests", VList [Demo.auth_test; no_assertion; Demo.status_test])];
     endpoint := Demo.api |}.

(** The world once the response of [Demo.serve] is bound and nothing has
    masked it. *)
Definition unredacted : ref_world :=
  {| registry := [("response", BoundResponse 0)];
     heap := [{| status_code := 200;
                 resp_headers := [("Authorization", VStr "secret123")];
                 resp_body := VDict [("id", VInt 7)] |}] |}.

(** A variable that refers to a field the response does not have. *)
Definition missing_field : RequestNode :=
  {| spec := [("name", VStr "list users");
              ("vars", VDict [("user_id", VStr "${response.body.missing}")]);
              ("tests", VList [Demo.auth_test])];
     endpoint := Demo.api |}.

(** The world of [missing_field] once the response is bound and the
    evaluation of its variable has failed. *)
Definition bound_only : ref_world :=
  {| registry := [("user_id", Bound (VStr "${response.body.missing}"));
                  ("response", BoundResponse 0)];
     heap := [{| status_code := 200;
                 resp_headers := [("Authorization", VStr "secret123")];
                 resp_body := VDict [("id", VInt 7)] |}] |}.

(** The world of [Demo.node] once its first update is through. *)
Definition first_update_only : ref_world :=
  {| registry := [("token", Bound (VStr "abc"));
                  ("user_id", Bound (VStr "${response.body.id}"))];
     heap := [] |}.

End Cases.

(** ** Vocabulary of the statements *)

(** [n] slashes. *)
Fixpoint slashes (n : nat) : string :=
  match n with
  | O => EmptyString
  | S n' => String slash (slashes n')
  end.

Definition first_char (s : string) : option ascii :=
  match s with
  | EmptyString => None
  | String c _ => Some c
  end.

Fixpoint last_char (s : string) : option ascii :=
  match s with
  | EmptyString => None
  | String c EmptyString => Some c
  | String _ s' => last_char s'
  end.

(** Every character of the string is an ASCII character. *)
Definition is_ascii (s : string) : bool :=
  forallb (fun c => Nat.ltb (nat_of_ascii c) 128) (list_ascii_of_string s).

Section Vocabulary.

Context {C : Collaborators}.

Definition is_evaluate (e : event) : bool :=
  match e with EvEvaluate _ => true | _ => false end.

Definition is_update (e : event) : bool :=
  match e with EvUpdate _ _ _ => true | _ => false end.

Definition is_request (e : event) : bool :=
  match e with EvRequest _ _ _ _ _ _ => true | _ => false end.

Definition is_test (e : event) : bool :=
  match e with EvTest _ => true | _ => false end.

Definition is_hide (e : event) : bool :=
  match e with EvHide _ => true | _ => false end.

(** The number of events of a kind in a log. *)
Definition count (kind : event -> bool) (log : list event) : nat :=
  List.length (filter kind log).

(** Every evaluation by the template evaluator that a log records stands
    before every update without preevaluation that it records. *)
Definition resolved_before_precall_update (log : list event) : Prop :=
  forall i j element vars extras,
    nth_error log i = Some (EvEvaluate element) ->
    nth_error log j = Some (EvUpdate vars extras false) ->
    i < j.

(** A computation adds at most [n] transport calls to the log, whatever
    it returns or raises. *)
Definition request_bound {A : Type} (m : M A) (n : nat) : Prop :=
  forall s : state,
    count is_request (st_log (snd (m s))) <= count is_request (st_log s) + n.

(** The configured variable bindings, [self.spec.get(VARS_KEY, {})]. *)
Definition configured_vars (self : RequestNode) : value :=
  dict_get_default (spec self) VARS_KEY (VDict []).

(** The joined path that [full_url_path] hands to the evaluator. *)
Definition joined_path (self : RequestNode) : value :=
  VStr (join_urls (ep_path (endpoint self))
          (py_str (dict_get_default (spec self) PATH_KEY (VStr "")))).

(** The events of a run that returns: the calls on the collaborators with
    the values they were given, in order. *)
Definition trace (self : RequestNode) (method : string)
  (url : value) (merged_headers merged_params : dict) (h p j : value)
  (r : Response) (specs : list value) : list event :=
  [EvEvaluate (joined_path self);
   EvLogInfo method url;
   EvUpdate (configured_vars self) [] false;
   EvEvaluate (VDict merged_headers);
   EvEvaluate (VDict merged_params);
   EvEvaluate (dict_get_default (spec self) BODY_KEY VNone);
   EvRequest method url h p j false;
   EvUpdate (configured_vars self) [("response", r)] true]
  ++ map EvTest specs ++ [EvHide r].

(** A run of [self] from [s] that returns [b] in [s'], step by step: what
    each collaborator was given, the world it was given it in, what it
    returned and the world it left. *)
Inductive completed (self : RequestNode) (s : state) (b : bundle) (s' : state)
  : Prop :=
| Completed (method : string) (url h p j : value) (mh mp : dict)
    (specs : list value) (w1 w2 w3 w4 w5 w6 w7 w8 : world)
    (Hmethod : http_method self = Ok method)
    (Hurl : vars_evaluate (joined_path self) (st_world s) = (Ok url, w1))
    (Hpre : vars_update (configured_vars self) [] false w1 = (Ok tt, w2))
    (Hmh : unpack_onto (ep_headers (endpoint self))
             (dict_get_default (spec self) HEADERS_KEY (VDict [])) = Ok mh)
    (Hheaders : vars_evaluate (VDict mh) w2 = (Ok h, w3))
    (Hmp : unpack_onto (ep_params (endpoint self))
             (dict_get_default (spec self) PARAMS_KEY (VDict [])) = Ok mp)
    (Hparams : vars_evaluate (VDict mp) w3 = (Ok p, w4))
    (Hbody : vars_evaluate (dict_get_default (spec self) BODY_KEY VNone) w4
             = (Ok j, w5))
    (Hrequest : requests_request method url h p j false w5
                = (Ok (response b), w6))
    (Hpost : vars_update (configured_vars self) [("response", response b)]
               true w6 = (Ok tt, w7))
    (Hspecs : py_iter (dict_get_default (spec self) "tests" (VList []))
              = Ok specs)
    (Htests : forall log,
        run_each self specs {| st_world := w7; st_log := log |}
        = (Ok (tests_results b),
           {| st_world := w8; st_log := log ++ map EvTest specs |}))
    (Hhide : hide_sensitive_info (response b) w8 = (Ok tt, st_world s'))
    (Hlog : st_log s' = st_log s
              ++ trace self method url mh mp h p j (response b) specs)
    (Hflag : no_failure b
             = forallb (fun t => TestStatus_eqb (status t) PASSED)
                 (tests_results b)).

End Vocabulary.

Section Outcomes.

Context {C : Collaborators}.

(** The calls of a run up to the transport call and, once the transport
    has returned the response [r], the calls that follow it. *)
Definition calls (self : RequestNode) (method : string) (url : value)
  (merged_headers merged_params : dict) (h p j : value)
  (after : option (Response * list value)) : list event :=
  [EvEvaluate (joined_path self);
   EvLogInfo method url;
   EvUpdate (configured_vars self) [] false;
   EvEvaluate (VDict merged_headers);
   EvEvaluate (VDict merged_params);
   EvEvaluate (dict_get_default (spec self) BODY_KEY VNone);
   EvRequest method url h p j false]
  ++ match after with
     | None => []
     | Some (r, specs) =>
         EvUpdate (configured_vars self) [("response", r)] true
         :: map EvTest specs ++ [EvHide r]
     end.

(** The tests [specs] ran one after the other from the world [w], each in
    the world the one before it left, and returned [rs]. *)
Inductive tested (self : RequestNode)
  : world -> list value -> list test_result -> world -> Prop :=
| tested_nil (w : world) : tested self w [] [] w
| tested_cons (w : world) (t : value) (r : test_result) (w1 : world)
    (specs : list value) (rs : list test_result) (w2 : world)
    (Hrun : testing_node_run t self w = (Ok r, w1))
    (Hrest : tested self w1 specs rs w2) :
    tested self w (t :: specs) (r :: rs) w2.

(** The steps of a run before the transport call, from [s]: what each
    one resolved, and the world [w5] the transport is called in. *)
Inductive prepared (self : RequestNode) (s : state) (method : string)
  (url h p j : value) (mh mp : dict) (w5 : world) : Prop :=
| Prepared (w1 w2 w3 w4 : world)
    (Hmethod : http_method self = Ok method)
    (Hurl : vars_evaluate (joined_path self) (st_world s) = (Ok url, w1))
    (Hpre : vars_update (configured_vars self) [] false w1 = (Ok tt, w2))
    (Hmh : unpack_onto (ep_headers (endpoint self))
             (dict_get_default (spec self) HEADERS_KEY (VDict [])) = Ok mh)
    (Hheaders : vars_evaluate (VDict mh) w2 = (Ok h, w3))
    (Hmp : unpack_onto (ep_params (endpoint self))
             (dict_get_default (spec self) PARAMS_KEY (VDict [])) = Ok mp)
    (Hparams : vars_evaluate (VDict mp) w3 = (Ok p, w4))
    (Hbody : vars_evaluate (dict_get_default (spec self) BODY_KEY VNone) w4
             = (Ok j, w5)).

(** The computation adds exactly one transport call to the log of [s]. *)
Definition called_transport_once {A : Type} (m : M A) (s : state) : Prop :=
  count is_request (st_log (snd (m s))) = count is_request (st_log s) + 1.

End Outcomes.

(** * Facts *)

(** ** Dicts *)

Lemma dict_get_set (k k' : string) (v : value) (d : dict) :
  dict_get k (dict_set k' v d) = if String.eqb k k' then Some v else dict_get k d.
Proof.
  induction d as [|[k0 v0] d IH]; simpl.
  - reflexivity.
  - destruct (String.eqb k' k0) eqn:E'; simpl.
    + apply String.eqb_eq in E'; subst k0.
      destruct (String.eqb k k'); reflexivity.
    + destruct (String.eqb k k0) eqn:E0.
      * apply String.eqb_eq in E0; subst k0.
        rewrite String.eqb_sym in E'. rewrite E'. reflexivity.
      * exact IH.
Qed.

(** After [a.update(b)] a key has the value [b] gives it last, and the value
    it had in [a] when [b] does not hold it. *)
Lemma dict_get_update (k : string) (b : list (string * value)) :
  forall a : dict,
    dict_get k (dict_update a b) =
    match dict_get k (py_dict b) with
    | Some v => Some v
    | None => dict_get k a
    end.
Proof.
  unfold py_dict, dict_update.
  induction b as [|[k0 v0] b IH]; intro a; simpl.
  - reflexivity.
  - rewrite (IH (dict_set k0 v0 a)), (IH [(k0, v0)]).
    match goal with
    | |- context [dict_get k (fold_left ?f b [])] =>
        destruct (dict_get k (fold_left f b []))
    end; simpl; [reflexivity|].
    rewrite dict_get_set. destruct (String.eqb k k0); reflexivity.
Qed.

Lemma dict_set_fresh (k : string) (v : value) (d : dict) :
  ~ In k (keys d) -> dict_set k v d = d ++ [(k, v)].
Proof.
  induction d as [|[k0 v0] d IH]; simpl; intro N.
  - reflexivity.
  - destruct (String.eqb k k0) eqn:E.
    + apply String.eqb_eq in E. subst. exfalso. apply N. now left.
    + f_equal. apply IH. intro I. apply N. now right.
Qed.

(** A dict without repeated keys is the dict of its own items. *)
Lemma py_dict_nodup (d : dict) : NoDup (keys d) -> py_dict d = d.
Proof.
  unfold py_dict, dict_update.
  assert (G : forall acc : dict,
             NoDup (keys (acc ++ d)) ->
             fold_left (fun a kv => dict_set (fst kv) (snd kv) a) d acc = acc ++ d).
  { induction d as [|[k0 v0] d IH]; intros acc N; simpl.
    - now rewrite app_nil_r.
    - rewrite dict_set_fresh.
      + rewrite IH; rewrite <- app_assoc; [reflexivity | exact N].
      + unfold keys in *. rewrite map_app in N. simpl in N.
        apply NoDup_remove_2 in N. intro I. apply N.
        apply in_or_app. now left. }
  intro N. exact (G [] N).
Qed.

Lemma dict_get_in_keys (k : string) (d : dict) (v : value) :
  dict_get k d = Some v -> In k (keys d).
Proof.
  induction d as [|[k0 v0] d IH]; simpl; [discriminate|].
  destruct (String.eqb k k0) eqn:E; intro G.
  - apply String.eqb_eq in E. now left.
  - right. now apply IH.
Qed.

Lemma dict_get_none_keys (k : string) (d : dict) :
  dict_get k d = None <-> ~ In k (keys d).
Proof.
  induction d as [|[k0 v0] d IH]; simpl.
  - split; [intros _ [] | reflexivity].
  - destruct (String.eqb k k0) eqn:E.
    + apply String.eqb_eq in E. subst. split; [discriminate|].
      intro N. exfalso. apply N. now left.
    + apply String.eqb_neq in E. rewrite IH. split.
      * intros N [I|I]; [now apply E | now apply N].
      * intros N I. apply N. now right.
Qed.

Lemma keys_dict_set_present (k : string) (v : value) (d : dict) :
  In k (keys d) -> keys (dict_set k v d) = keys d.
Proof.
  induction d as [|[k0 v0] d IH]; simpl; [intros []|].
  destruct (String.eqb k k0) eqn:E; simpl.
  - apply String.eqb_eq in E. now subst.
  - apply String.eqb_neq in E. intros [I|I]; [now subst|].
    f_equal. now apply IH.
Qed.

(** ** Strings *)

Lemma str_in_spec (x : string) (t : list string) :
  str_in x t = true <-> In x t.
Proof.
  unfold str_in. rewrite existsb_exists. split.
  - intros [y [I E]]. apply String.eqb_eq in E. now subst.
  - intro I. exists x. split; [exact I | apply String.eqb_refl].
Qed.

Lemma str_in_false (x : string) (t : list string) :
  str_in x t = false <-> ~ In x t.
Proof.
  rewrite <- str_in_spec. destruct (str_in x t); split; congruence.
Qed.

Lemma upper_char_idem (c : ascii) : upper_char (upper_char c) = upper_char c.
Proof.
  destruct c as [[] [] [] [] [] [] [] []]; vm_compute; reflexivity.
Qed.

Lemma upper_idem (s : string) : upper (upper s) = upper s.
Proof.
  induction s as [|c s IH]; simpl; [reflexivity|].
  now rewrite upper_char_idem, IH.
Qed.

Lemma upper_allowed (a : string) :
  In a ALLOWED_HTTP_METHODS -> upper a = a.
Proof.
  simpl. intros [E|[E|[E|[E|[E|[]]]]]]; subst; reflexivity.
Qed.

Lemma rstrip_slash_decomp (s : string) :
  exists n, s = (rstrip_slash s ++ slashes n)%string.
Proof.
  induction s as [|c s [n IH]]; simpl.
  - exists 0. reflexivity.
  - destruct (rstrip_slash s) eqn:R.
    + destruct (Ascii.eqb c slash) eqn:E.
      * apply Ascii.eqb_eq in E. subst c. exists (S n). simpl in *. now f_equal.
      * exists n. simpl in *. now f_equal.
    + exists n. simpl in *. now f_equal.
Qed.

Lemma lstrip_slash_decomp (s : string) :
  exists n, s = (slashes n ++ lstrip_slash s)%string.
Proof.
  induction s as [|c s [n IH]]; simpl.
  - exists 0. reflexivity.
  - destruct (Ascii.eqb c slash) eqn:E.
    + apply Ascii.eqb_eq in E. subst c. exists (S n). simpl. now f_equal.
    + exists 0. reflexivity.
Qed.

Lemma rstrip_slash_last (s : string) : last_char (rstrip_slash s) <> Some slash.
Proof.
  induction s as [|c s IH]; simpl; [discriminate|].
  destruct (rstrip_slash s) eqn:R.
  - destruct (Ascii.eqb c slash) eqn:E; simpl; [discriminate|].
    apply Ascii.eqb_neq in E. congruence.
  - exact IH.
Qed.

Lemma lstrip_slash_first (s : string) : first_char (lstrip_slash s) <> Some slash.
Proof.
  induction s as [|c s IH]; simpl; [discriminate|].
  destruct (Ascii.eqb c slash) eqn:E; [exact IH|].
  apply Ascii.eqb_neq in E. simpl. congruence.
Qed.

Lemma rstrip_slash_app_slashes (s : string) (n : nat) :
  rstrip_slash (s ++ slashes n) = rstrip_slash s.
Proof.
  assert (Z : forall n, rstrip_slash (slashes n) = EmptyString).
  { intro k. induction k as [|k IH]; simpl; [reflexivity|]. now rewrite IH. }
  induction s as [|c s IH]; simpl.
  - apply Z.
  - now rewrite IH.
Qed.

Lemma lstrip_slash_slashes_app (s : string) (n : nat) :
  lstrip_slash (slashes n ++ s) = lstrip_slash s.
Proof.
  induction n as [|n IH]; simpl; [reflexivity | exact IH].
Qed.

(** ** The monad *)

Section RunFacts.

Context {C : Collaborators}.

Lemma bind_ok {A B : Type} (m : M A) (f : A -> M B) (s : state) (b : B)
  (s' : state) :
  bind m f s = (Ok b, s') ->
  exists a s1, m s = (Ok a, s1) /\ f a s1 = (Ok b, s').
Proof.
  unfold bind. destruct (m s) as [[a|e] s1]; intro H.
  - exists a, s1. split; [reflexivity | exact H].
  - discriminate.
Qed.

Lemma lift_result_ok {A : Type} (r : result A) (s : state) (a : A) (s' : state) :
  lift_result r s = (Ok a, s') -> r = Ok a /\ s' = s.
Proof. unfold lift_result. intro H. inversion H. split; reflexivity. Qed.

(** A logged call: the event goes to the log whatever the call returns. *)
Lemma emit_call {A : Type} (e : event) (f : world -> result A * world)
  (s : state) :
  bind (emit e) (fun _ => call f) s
  = (fst (f (st_world s)),
     {| st_world := snd (f (st_world s)); st_log := st_log s ++ [e] |}).
Proof.
  unfold bind, emit, call. simpl. destruct (f (st_world s)); reflexivity.
Qed.

Lemma emit_call_ok {A : Type} (e : event) (f : world -> result A * world)
  (s : state) (a : A) (s' : state) :
  bind (emit e) (fun _ => call f) s = (Ok a, s') ->
  f (st_world s) = (Ok a, st_world s') /\ st_log s' = st_log s ++ [e].
Proof.
  rewrite emit_call. destruct (f (st_world s)) as [r w]. simpl.
  intro H. inversion H. subst. split; reflexivity.
Qed.

Lemma emit_call_log {A : Type} (e : event) (f : world -> result A * world)
  (s : state) :
  st_log (snd (bind (emit e) (fun _ => call f) s)) = st_log s ++ [e].
Proof. rewrite emit_call. reflexivity. Qed.

(** The loop over the tests, when it returns: one event per test
    specification, in order, and one result per test specification. *)
Lemma run_each_ok (self : RequestNode) (specs : list value) :
  forall (s : state) (rs : list test_result) (s' : state),
    run_each self specs s = (Ok rs, s') ->
    st_log s' = st_log s ++ map EvTest specs /\
    List.length rs = List.length specs.
Proof.
  induction specs as [|t specs IH]; intros s rs s' H; simpl in H.
  - inversion H. subst. simpl. rewrite app_nil_r. split; reflexivity.
  - apply bind_ok in H. destruct H as (r & s1 & H1 & H).
    apply bind_ok in H. destruct H as (rs' & s2 & H2 & H).
    inversion H. subst. clear H.
    apply emit_call_ok in H1. destruct H1 as [_ L1].
    apply IH in H2. destruct H2 as [L2 N].
    simpl. rewrite L2, L1, <- app_assoc. simpl. split; [reflexivity|].
    now rewrite N.
Qed.

(** One turn of the loop. *)
Lemma run_each_cons (self : RequestNode) (t : value) (specs : list value)
  (s : state) :
  run_each self (t :: specs) s
  = match testing_node_run t self (st_world s) with
    | (Ok r, w1) =>
        match run_each self specs
                {| st_world := w1; st_log := st_log s ++ [EvTest t] |} with
        | (Ok rs, s2) => (Ok (r :: rs), s2)
        | (Raise e, s2) => (Raise e, s2)
        end
    | (Raise e, w1) =>
        (Raise e, {| st_world := w1; st_log := st_log s ++ [EvTest t] |})
    end.
Proof.
  simpl. unfold bind at 1. rewrite emit_call.
  destruct (testing_node_run t self (st_world s)) as [[r|e] w1]; simpl.
  - unfold bind, ret.
    destruct (run_each self specs _) as [[rs|e] s2]; reflexivity.
  - reflexivity.
Qed.

(** The loop does not read the log: from another log it returns the same
    and leaves the same world. *)
Lemma run_each_any_log (self : RequestNode) (specs : list value) :
  forall (w : world) (log log' : list event),
    fst (run_each self specs {| st_world := w; st_log := log' |})
    = fst (run_each self specs {| st_world := w; st_log := log |}) /\
    st_world (snd (run_each self specs {| st_world := w; st_log := log' |}))
    = st_world (snd (run_each self specs {| st_world := w; st_log := log |})).
Proof.
  induction specs as [|t specs IH]; intros w log log'.
  - split; reflexivity.
  - rewrite !run_each_cons. simpl.
    destruct (testing_node_run t self w) as [[r|e] w1]; simpl.
    + destruct (IH w1 (log ++ [EvTest t]) (log' ++ [EvTest t])) as [F W].
      destruct (run_each self specs {| st_world := w1; st_log := log' ++ [EvTest t] |})
        as [[rs'|e'] s2'];
      destruct (run_each self specs {| st_world := w1; st_log := log ++ [EvTest t] |})
        as [[rs|e] s2]; simpl in *; try discriminate;
      inversion F; subst; split; [reflexivity | exact W | reflexivity | exact W].
    + split; reflexivity.
Qed.

(** The loop, for any outcome: it logs tests only. *)
Lemma run_each_log (self : RequestNode) (specs : list value) :
  forall s : state,
    exists n, st_log (snd (run_each self specs s))
              = st_log s ++ map EvTest (firstn n specs).
Proof.
  induction specs as [|t specs IH]; intro s.
  - exists 0. simpl. now rewrite app_nil_r.
  - rewrite run_each_cons.
    destruct (testing_node_run t self (st_world s)) as [[r|e] w1].
    + destruct (IH {| st_world := w1; st_log := st_log s ++ [EvTest t] |}) as [n L].
      destruct (run_each self specs _) as [[rs|e] s2]; simpl in *;
        exists (S n); rewrite L, <- app_assoc; reflexivity.
    + exists 1. simpl. destruct specs; reflexivity.
Qed.

(** ** The properties of a request, as steps *)

Lemma evaluate_ok (element : value) (s : state) (v : value) (s' : state) :
  evaluate element s = (Ok v, s') ->
  vars_evaluate element (st_world s) = (Ok v, st_world s') /\
  st_log s' = st_log s ++ [EvEvaluate element].
Proof. apply emit_call_ok. Qed.

Lemma update_ok (vars : value) (extras : list (string * Response))
  (preevaluate : bool) (s : state) (u : unit) (s' : state) :
  update vars extras preevaluate s = (Ok u, s') ->
  vars_update vars extras preevaluate (st_world s) = (Ok tt, st_world s') /\
  st_log s' = st_log s ++ [EvUpdate vars extras preevaluate].
Proof. destruct u. apply emit_call_ok. Qed.

Lemma full_url_path_ok (self : RequestNode) (s : state) (url : value)
  (s' : state) :
  full_url_path self s = (Ok url, s') ->
  vars_evaluate (joined_path self) (st_world s) = (Ok url, st_world s') /\
  st_log s' = st_log s ++ [EvEvaluate (joined_path self)].
Proof. apply evaluate_ok. Qed.

Lemma headers_ok (self : RequestNode) (s : state) (h : value) (s' : state) :
  headers self s = (Ok h, s') ->
  exists mh,
    unpack_onto (ep_headers (endpoint self))
      (dict_get_default (spec self) HEADERS_KEY (VDict [])) = Ok mh /\
    vars_evaluate (VDict mh) (st_world s) = (Ok h, st_world s') /\
    st_log s' = st_log s ++ [EvEvaluate (VDict mh)].
Proof.
  unfold headers. intro H.
  apply bind_ok in H. destruct H as (mh & s1 & H1 & H).
  apply lift_result_ok in H1. destruct H1 as [U ->].
  exists mh. split; [exact U | now apply evaluate_ok].
Qed.

Lemma params_ok (self : RequestNode) (s : state) (p : value) (s' : state) :
  params self s = (Ok p, s') ->
  exists mp,
    unpack_onto (ep_params (endpoint self))
      (dict_get_default (spec self) PARAMS_KEY (VDict [])) = Ok mp /\
    vars_evaluate (VDict mp) (st_world s) = (Ok p, st_world s') /\
    st_log s' = st_log s ++ [EvEvaluate (VDict mp)].
Proof.
  unfold params. intro H.
  apply bind_ok in H. destruct H as (mp & s1 & H1 & H).
  apply lift_result_ok in H1. destruct H1 as [U ->].
  exists mp. split; [exact U | now apply evaluate_ok].
Qed.

Lemma body_ok (self : RequestNode) (s : state) (j : value) (s' : state) :
  body self s = (Ok j, s') ->
  vars_evaluate (dict_get_default (spec self) BODY_KEY VNone) (st_world s)
  = (Ok j, st_world s') /\
  st_log s' = st_log s
              ++ [EvEvaluate (dict_get_default (spec self) BODY_KEY VNone)].
Proof. apply evaluate_ok. Qed.

Lemma _run_tests_ok (self : RequestNode) (s : state) (rs : list test_result)
  (s' : state) :
  _run_tests self s = (Ok rs, s') ->
  exists specs,
    py_iter (dict_get_default (spec self) "tests" (VList [])) = Ok specs /\
    run_each self specs s = (Ok rs, s').
Proof.
  unfold _run_tests. intro H.
  apply bind_ok in H. destruct H as (specs & s1 & H1 & H).
  apply lift_result_ok in H1. destruct H1 as [U ->].
  exists specs. split; assumption.
Qed.

(** A run that returns went through every step of [completed]. *)
Lemma run_completed (self : RequestNode) (s : state) (b : bundle) (s' : state) :
  run self s = (Ok b, s') -> completed self s b s'.
Proof.
  unfold run. intro H.
  apply bind_ok in H. destruct H as (method & s0 & Hm & H).
  apply lift_result_ok in Hm. destruct Hm as [Hm ->].
  apply bind_ok in H. destruct H as (url & s1 & Hu & H).
  apply full_url_path_ok in Hu. destruct Hu as [Hu Lu].
  apply bind_ok in H. destruct H as (u1 & s2 & Hl & H).
  unfold logger_info, emit in Hl. inversion Hl. subst s2. clear Hl.
  apply bind_ok in H. destruct H as (u2 & s3 & Hp & H).
  apply update_ok in Hp. destruct Hp as [Hp Lp]. simpl in Hp, Lp.
  apply bind_ok in H. destruct H as (h & s4 & Hh & H).
  apply headers_ok in Hh. destruct Hh as (mh & Umh & Hh & Lh).
  apply bind_ok in H. destruct H as (p & s5 & Hq & H).
  apply params_ok in Hq. destruct Hq as (mp & Ump & Hq & Lq).
  apply bind_ok in H. destruct H as (j & s6 & Hb & H).
  apply body_ok in Hb. destruct Hb as [Hb Lb].
  apply bind_ok in H. destruct H as (r & s7 & Hr & H).
  apply emit_call_ok in Hr. destruct Hr as [Hr Lr].
  apply bind_ok in H. destruct H as (u3 & s8 & Hq2 & H).
  apply update_ok in Hq2. destruct Hq2 as [Hq2 Lq2].
  apply bind_ok in H. destruct H as (rs & s9 & Ht & H).
  apply _run_tests_ok in Ht. destruct Ht as (specs & Us & Ht).
  apply bind_ok in H. destruct H as (u4 & s10 & Hd & H).
  destruct u4. apply emit_call_ok in Hd. destruct Hd as [Hd Ld].
  unfold ret in H. inversion H. subst s10 b. clear H. simpl.
  destruct (run_each_ok _ _ _ Ht) as [Lt _].
  apply Completed with (method := method) (url := url) (h := h) (p := p)
    (j := j) (mh := mh) (mp := mp) (specs := specs) (w1 := st_world s1)
    (w2 := st_world s3) (w3 := st_world s4) (w4 := st_world s5)
    (w5 := st_world s6) (w6 := st_world s7) (w7 := st_world s8)
    (w8 := st_world s9); simpl; try assumption.
  - intro log.
    destruct (run_each_any_log self specs (st_world s8) (st_log s8) log)
      as [F W].
    destruct s8 as [w8' l8]. simpl in *. rewrite Ht in F, W. simpl in F, W.
    destruct (run_each self specs {| st_world := w8'; st_log := log |})
      as [[rs'|e] [w9 l9]] eqn:E; simpl in F, W; try discriminate.
    inversion F. subst rs' w9.
    destruct (run_each_ok _ _ _ E) as [L9 _]. simpl in L9. now subst l9.
  - rewrite Ld, Lt, Lq2, Lr, Lb, Lq, Lh, Lp. simpl. rewrite Lu.
    unfold trace. rewrite <- !app_assoc. reflexivity.
  - reflexivity.
Qed.

End RunFacts.

(** * The claims *)

(** ** The HTTP method *)

Lemma upper_is_ascii (m : string) :
  is_ascii m = true -> is_ascii (upper m) = true.
Proof.
  unfold is_ascii. induction m as [|c m IH]; simpl; [reflexivity|].
  rewrite !andb_true_iff. intros [A B]. split; [|exact (IH B)].
  apply Nat.ltb_lt in A. apply Nat.ltb_lt.
  unfold upper_char. destruct (is_lower c); [|exact A].
  rewrite nat_ascii_embedding; lia.
Qed.

(** C4.  For a configured method string [m] of ASCII characters,
    [http_method] folds it to upper case and returns the folded string
    when it is one of GET, POST, PUT, PATCH and DELETE, that is when [m]
    is one of these up to case; otherwise it raises
    HTTPMethodNotAllowedError with the folded value and the allowed
    methods; the folded value is ASCII again.  Construction does not look
    at the method: whatever string is
    configured there, [RequestNode(spec, endpoint)] validates, or fails,
    alike. *)
Theorem http_method_checked_on_access (self : RequestNode) (m : string) :
  is_ascii m = true ->
  dict_get METHOD_KEY (spec self) = Some (VStr m) ->
  (str_in (upper m) ALLOWED_HTTP_METHODS = true ->
   http_method self = Ok (upper m)) /\
  (str_in (upper m) ALLOWED_HTTP_METHODS = false ->
   http_method self
   = Raise (HTTPMethodNotAllowedError (upper m) ALLOWED_HTTP_METHODS)) /\
  (str_in (upper m) ALLOWED_HTTP_METHODS = true <->
   exists a, In a ALLOWED_HTTP_METHODS /\ upper m = upper a) /\
  is_ascii (upper m) = true /\
  ALLOWED_HTTP_METHODS = ["GET"; "POST"; "PUT"; "PATCH"; "DELETE"] /\
  (forall m' : string,
      let spec' := dict_set METHOD_KEY (VStr m') (spec self) in
      RequestNode_init spec' (endpoint self)
      = match RequestNode_init (spec self) (endpoint self) with
        | Ok _ => Ok {| spec := spec'; endpoint := endpoint self |}
        | Raise e => Raise e
        end).
Proof.
  intros A G. unfold http_method, dict_get_default. rewrite G.
  repeat split.
  - intro I. cbv beta iota zeta. now rewrite I.
  - intro I. cbv beta iota zeta. now rewrite I.
  - intro I. apply str_in_spec in I. exists (upper m). split; [exact I|].
    now rewrite upper_idem.
  - intros [a [I E]]. apply str_in_spec. rewrite E.
    now rewrite (upper_allowed I).
  - now apply upper_is_ascii.
  - intro m'. unfold RequestNode_init, _validate. simpl.
    rewrite (keys_dict_set_present _ _ _ (dict_get_in_keys _ _ G)).
    destruct (validate_keys _ _ _ _); reflexivity.
Qed.

(** A witness of C4: a node whose spec names the method OPTIONS. *)
Lemma http_method_checked_on_access_witness :
  let self := {| spec := [("name", VStr "n"); ("method", VStr "options")];
                 endpoint := Demo.api |} in
  is_ascii "options" = true /\
  RequestNode_init (spec self) (endpoint self) = Ok self /\
  http_method self
  = Raise (HTTPMethodNotAllowedError "OPTIONS" ALLOWED_HTTP_METHODS).
Proof.
  split; [reflexivity|]. split; [reflexivity|].
  apply (@http_method_checked_on_access
           {| spec := [("name", VStr "n"); ("method", VStr "options")];
              endpoint := Demo.api |} "options");
    reflexivity.
Defined.

Example http_method_examples :
  let node m := {| spec := [("name", VStr "n"); ("method", VStr m)];
                   endpoint := Demo.api |} in
  http_method (node "get") = Ok "GET" /\
  http_method (node "PaTcH") = Ok "PATCH" /\
  http_method (node "delete") = Ok "DELETE" /\
  http_method (node "OPTIONS")
  = Raise (HTTPMethodNotAllowedError "OPTIONS" ALLOWED_HTTP_METHODS) /\
  http_method (node "")
  = Raise (HTTPMethodNotAllowedError "" ALLOWED_HTTP_METHODS).
Proof. repeat split. Qed.

(** ** Validation on construction *)

Lemma filter_nil_iff {A : Type} (f : A -> bool) (l : list A) :
  filter f l = [] <-> forall x, In x l -> f x = false.
Proof.
  induction l as [|a l IH]; simpl.
  - split; [intros _ x [] | reflexivity].
  - destruct (f a) eqn:E.
    + split; [discriminate|]. intro H. specialize (H a (or_introl eq_refl)).
      congruence.
    + rewrite IH. split.
      * intros H x [->|I]; [exact E | now apply H].
      * intros H x I. apply H. now right.
Qed.

(** C7.  Construction validates the keys of the configuration fragment:
    it succeeds exactly when every key is one of body, headers, method,
    name, params, path, tests and vars, and the key name is there;
    otherwise it raises a validation error that carries the offending
    keys (the keys that are not allowed and the required keys that are
    missing) and the scope label request. *)
Theorem request_node_validates_keys (spec0 : dict) (endpoint0 : EndpointNode) :
  let offending :=
    filter (fun k => negb (str_in k ALLOWED_KEYS)) (keys spec0)
    ++ filter (fun k => negb (str_in k (keys spec0))) REQUIRED_KEYS in
  ALLOWED_KEYS
  = ["body"; "headers"; "method"; "name"; "params"; "path"; "tests"; "vars"] /\
  REQUIRED_KEYS = ["name"] /\
  (offending = [] <->
   incl (keys spec0) ALLOWED_KEYS /\ incl REQUIRED_KEYS (keys spec0)) /\
  (forall k, In k offending <->
             (In k (keys spec0) /\ ~ In k ALLOWED_KEYS) \/
             (In k REQUIRED_KEYS /\ ~ In k (keys spec0))) /\
  (offending = [] ->
   RequestNode_init spec0 endpoint0
   = Ok {| spec := spec0; endpoint := endpoint0 |}) /\
  (offending <> [] ->
   RequestNode_init spec0 endpoint0
   = Raise (ValidationError offending "request")).
Proof.
  intro offending.
  assert (M : forall k, In k offending <->
             (In k (keys spec0) /\ ~ In k ALLOWED_KEYS) \/
             (In k REQUIRED_KEYS /\ ~ In k (keys spec0))).
  { intro k. unfold offending. rewrite in_app_iff, !filter_In.
    rewrite !negb_true_iff, !str_in_false. reflexivity. }
  split; [reflexivity|]. split; [reflexivity|].
  split; [|split; [exact M|]].
  - split.
    + intro E. split; intros k I.
      * destruct (str_in k ALLOWED_KEYS) eqn:A; [now apply str_in_spec|].
        apply str_in_false in A. assert (In k offending) as O
            by (apply M; left; split; assumption).
        rewrite E in O. destruct O.
      * destruct (str_in k (keys spec0)) eqn:A; [now apply str_in_spec|].
        apply str_in_false in A. assert (In k offending) as O
            by (apply M; right; split; assumption).
        rewrite E in O. destruct O.
    + intros [IA IR]. destruct offending as [|k l] eqn:E; [reflexivity|].
      exfalso. destruct (proj1 (M k) (or_introl eq_refl)) as [[I N]|[I N]].
      * apply N. now apply IA.
      * apply N. now apply IR.
  - unfold RequestNode_init, _validate, validate_keys. simpl spec.
    fold offending. split.
    + intros ->. reflexivity.
    + intro N. destruct offending; [congruence | reflexivity].
Qed.

Example request_node_validation_examples :
  RequestNode_init [("name", VStr "n"); ("foo", VInt 1)] Demo.api
  = Raise (ValidationError ["foo"] "request") /\
  RequestNode_init [("path", VStr "/users")] Demo.api
  = Raise (ValidationError ["name"] "request") /\
  RequestNode_init [("foo", VInt 1)] Demo.api
  = Raise (ValidationError ["foo"; "name"] "request") /\
  RequestNode_init (spec Demo.node) Demo.api = Ok Demo.node.
Proof. repeat split. Qed.

(** ** Joining and evaluating the path *)

(** C6.  For the base path [B] of the endpoint and the configured path
    [S] of the node (the empty string when the node has no path key),
    [full_url_path] makes one call on the evaluator, in the world it is
    read in, and the call is given the joined string: [B] without its
    trailing slashes, one slash, [S] without its leading slashes.  Neither
    side of that slash ends, or begins, with a slash, so that exactly one
    slash separates them whatever slashes [B] and [S] bring along; the
    join comes first and the evaluation second. *)
Theorem full_url_path_joins_then_evaluates
  {C : Collaborators} (self : RequestNode) (S : string) (s : state) :
  dict_get_default (spec self) PATH_KEY (VStr "") = VStr S ->
  let B := ep_path (endpoint self) in
  let joined := (rstrip_slash B ++ "/" ++ lstrip_slash S)%string in
  full_url_path self s
  = (fst (vars_evaluate (VStr joined) (st_world s)),
     {| st_world := snd (vars_evaluate (VStr joined) (st_world s));
        st_log := st_log s ++ [EvEvaluate (VStr joined)] |}) /\
  join_urls B S = joined /\
  (exists n, B = (rstrip_slash B ++ slashes n)%string) /\
  (exists m, S = (slashes m ++ lstrip_slash S)%string) /\
  last_char (rstrip_slash B) <> Some slash /\
  first_char (lstrip_slash S) <> Some slash /\
  (forall n m,
      join_urls (B ++ slashes n)%string (slashes m ++ S)%string = joined).
Proof.
  intros P B joined.
  split; [|split; [reflexivity|]].
  - unfold full_url_path. rewrite P. cbv zeta.
    change (py_str (VStr S)) with S.
    unfold evaluate. apply emit_call.
  - split; [apply rstrip_slash_decomp|].
    split; [apply lstrip_slash_decomp|].
    split; [apply rstrip_slash_last|].
    split; [apply lstrip_slash_first|].
    intros n m. unfold join_urls, joined.
    now rewrite rstrip_slash_app_slashes, lstrip_slash_slashes_app.
Qed.

(** A witness of C6: the base /api/ and the path /users of the scenario
    are joined into /api/users, with one slash, and that string is what
    the evaluator is given. *)
Lemma full_url_path_joins_then_evaluates_witness :
  ep_path (endpoint Demo.node) = "/api/" /\
  dict_get_default (spec Demo.node) PATH_KEY (VStr "") = VStr "/users" /\
  @full_url_path Demo.C Demo.node Demo.s0
  = (Ok (VStr "/api/users"),
     @Build_state Demo.C Reference.empty_world
       [EvEvaluate (VStr "/api/users")]).
Proof.
  split; [reflexivity|]. split; [reflexivity|].
  exact (proj1 (@full_url_path_joins_then_evaluates Demo.C Demo.node "/users"
                  Demo.s0 eq_refl)).
Defined.

Example join_urls_examples :
  join_urls "/api/" "/users" = "/api/users" /\
  join_urls "/api" "users" = "/api/users" /\
  join_urls "/api" "/users" = "/api/users" /\
  join_urls "/api/" "users" = "/api/users" /\
  join_urls "/api//" "//users/" = "/api/users/" /\
  join_urls "/api" "" = "/api/".
Proof. repeat split. Qed.

(** ** Headers and params *)

(** C5.  When the node's own headers (params) are a mapping, the
    effective headers (params) are the result of one evaluation, of the
    merged mapping [{**endpoint's, **own}] as a whole; in the merged
    mapping a name has the node's own value when the node has the name,
    and the endpoint's value otherwise. *)
Theorem headers_params_merge_then_evaluate
  {C : Collaborators} (self : RequestNode) (own_headers own_params : dict)
  (s : state) :
  dict_get_default (spec self) HEADERS_KEY (VDict []) = VDict own_headers ->
  dict_get_default (spec self) PARAMS_KEY (VDict []) = VDict own_params ->
  let mh := dict_unpack2 (ep_headers (endpoint self)) own_headers in
  let mp := dict_unpack2 (ep_params (endpoint self)) own_params in
  headers self s
  = (fst (vars_evaluate (VDict mh) (st_world s)),
     {| st_world := snd (vars_evaluate (VDict mh) (st_world s));
        st_log := st_log s ++ [EvEvaluate (VDict mh)] |}) /\
  params self s
  = (fst (vars_evaluate (VDict mp) (st_world s)),
     {| st_world := snd (vars_evaluate (VDict mp) (st_world s));
        st_log := st_log s ++ [EvEvaluate (VDict mp)] |}) /\
  (forall k, dict_get k mh
             = match dict_get k (py_dict own_headers) with
               | Some v => Some v
               | None => dict_get k (py_dict (ep_headers (endpoint self)))
               end) /\
  (forall k, dict_get k mp
             = match dict_get k (py_dict own_params) with
               | Some v => Some v
               | None => dict_get k (py_dict (ep_params (endpoint self)))
               end) /\
  (NoDup (keys own_headers) -> py_dict own_headers = own_headers) /\
  (NoDup (keys own_params) -> py_dict own_params = own_params) /\
  (NoDup (keys (ep_headers (endpoint self))) ->
   py_dict (ep_headers (endpoint self)) = ep_headers (endpoint self)) /\
  (NoDup (keys (ep_params (endpoint self))) ->
   py_dict (ep_params (endpoint self)) = ep_params (endpoint self)).
Proof.
  intros Hh Hp mh mp.
  split; [|split].
  - unfold headers. rewrite Hh. simpl unpack_onto.
    unfold bind at 1, lift_result. apply emit_call.
  - unfold params. rewrite Hp. simpl unpack_onto.
    unfold bind at 1, lift_result. apply emit_call.
  - split; [intro k; apply dict_get_update|].
    split; [intro k; apply dict_get_update|].
    repeat split; apply py_dict_nodup.
Qed.

(** A witness of C5: the node of the scenario, whose header X-Token
    overrides the endpoint's; in the empty namespace the variable of the
    merged header is undefined. *)
Lemma headers_params_merge_then_evaluate_witness :
  dict_get_default (spec Demo.node) HEADERS_KEY (VDict [])
  = VDict [("X-Token", VStr "${token}")] /\
  dict_get_default (spec Demo.node) PARAMS_KEY (VDict []) = VDict [] /\
  @headers Demo.C Demo.node Demo.s0
  = (Raise (TemplateResolutionError "token"),
     @Build_state Demo.C Reference.empty_world
       [EvEvaluate (VDict [("Accept", VStr "json");
                           ("X-Token", VStr "${token}")])]).
Proof.
  split; [reflexivity|]. split; [reflexivity|].
  exact (proj1 (@headers_params_merge_then_evaluate Demo.C Demo.node
                  [("X-Token", VStr "${token}")] [] Demo.s0
                  eq_refl eq_refl)).
Defined.

(** ** Counting events *)

Section Counting.

Context {C : Collaborators}.

Lemma count_app (kind : event -> bool) (l1 l2 : list event) :
  count kind (l1 ++ l2) = count kind l1 + count kind l2.
Proof. unfold count. now rewrite filter_app, length_app. Qed.

Lemma count_tests (kind : event -> bool) (specs : list value) :
  (forall t, kind (EvTest t) = false) ->
  count kind (map EvTest specs) = 0.
Proof.
  intro K. unfold count. induction specs as [|t specs IH]; simpl.
  - reflexivity.
  - now rewrite K.
Qed.

Lemma request_bound_bind {A B : Type} (m : M A) (f : A -> M B) (n1 n2 : nat) :
  request_bound m n1 -> (forall a, request_bound (f a) n2) ->
  request_bound (bind m f) (n1 + n2).
Proof.
  unfold request_bound, bind. intros Hm Hf s. specialize (Hm s).
  destruct (m s) as [[a|e] s1]; simpl in *.
  - specialize (Hf a s1). lia.
  - lia.
Qed.

Lemma request_bound_lift {A : Type} (r : result A) :
  request_bound (lift_result r) 0.
Proof. unfold request_bound, lift_result. intro s. simpl. lia. Qed.

Lemma request_bound_ret {A : Type} (a : A) : request_bound (ret a) 0.
Proof. unfold request_bound, ret. intro s. simpl. lia. Qed.

Lemma request_bound_emit_call {A : Type} (e : event)
  (f : world -> result A * world) :
  request_bound (bind (emit e) (fun _ => call f))
    (if is_request e then 1 else 0).
Proof.
  unfold request_bound. intro s. rewrite emit_call_log, count_app.
  unfold count at 2. simpl. destruct (is_request e); simpl; lia.
Qed.

Lemma request_bound_emit (e : event) :
  is_request e = false -> request_bound (emit e) 0.
Proof.
  unfold request_bound, emit. intros K s. simpl. rewrite count_app.
  unfold count at 2. simpl. rewrite K. simpl. lia.
Qed.

Lemma request_bound_run_each (self : RequestNode) (specs : list value) :
  request_bound (run_each self specs) 0.
Proof.
  unfold request_bound. intro s.
  destruct (run_each_log self specs s) as [n L]. rewrite L, count_app.
  rewrite count_tests; [lia | reflexivity].
Qed.

(** Whatever [run] returns or raises, it calls the transport at most
    once. *)
Lemma request_bound_run (self : RequestNode) : request_bound (run self) 1.
Proof.
  unfold run.
  change 1 with (0 + (0 + (0 + (0 + (0 + (0 + (0 + (1 + (0 + (0 + (0 + 0))))))))))).
  apply request_bound_bind; [apply request_bound_lift | intro method].
  apply request_bound_bind;
    [apply (request_bound_emit_call (EvEvaluate _)) | intro url].
  apply request_bound_bind; [now apply request_bound_emit | intros _].
  apply request_bound_bind;
    [apply (request_bound_emit_call (EvUpdate _ _ _)) | intros _].
  apply request_bound_bind; [|intro h].
  { unfold headers.
    change 0 with (0 + 0). apply request_bound_bind;
      [apply request_bound_lift | intro mh].
    apply (request_bound_emit_call (EvEvaluate _)). }
  apply request_bound_bind; [|intro p].
  { unfold params.
    change 0 with (0 + 0). apply request_bound_bind;
      [apply request_bound_lift | intro mp].
    apply (request_bound_emit_call (EvEvaluate _)). }
  apply request_bound_bind;
    [apply (request_bound_emit_call (EvEvaluate _)) | intro j].
  apply request_bound_bind;
    [apply (request_bound_emit_call (EvRequest _ _ _ _ _ _)) | intro r].
  apply request_bound_bind;
    [apply (request_bound_emit_call (EvUpdate _ _ _)) | intros _].
  apply request_bound_bind; [|intro rs].
  { unfold _run_tests.
    change 0 with (0 + 0). apply request_bound_bind;
      [apply request_bound_lift | intro specs].
    apply request_bound_run_each. }
  apply request_bound_bind;
    [apply (request_bound_emit_call (EvHide _)) | intros _].
  apply request_bound_ret.
Qed.

End Counting.

(** ** The steps of a run *)

Section RunSteps.

Context {C : Collaborators}.

Lemma bind_lift_ok {A B : Type} (a : A) (f : A -> M B) (s : state) :
  bind (lift_result (Ok a)) f s = f a s.
Proof. reflexivity. Qed.

Lemma bind_lift_raise {A B : Type} (e : exn) (f : A -> M B) (s : state) :
  bind (lift_result (Raise e)) f s = (Raise e, s).
Proof. reflexivity. Qed.

Lemma bind_emit {B : Type} (e : event) (f : unit -> M B) (s : state) :
  bind (emit e) f s
  = f tt {| st_world := st_world s; st_log := st_log s ++ [e] |}.
Proof. reflexivity. Qed.

Lemma bind_assoc {A B D : Type} (m : M A) (g : A -> M B) (f : B -> M D)
  (s : state) :
  bind (bind m g) f s = bind m (fun a => bind (g a) f) s.
Proof. unfold bind. destruct (m s) as [[a|e] s1]; reflexivity. Qed.

(** A logged call followed by the rest of the computation. *)
Lemma bind_emit_call {A B : Type} (e : event)
  (g : world -> result A * world) (f : A -> M B) (s : state) :
  bind (bind (emit e) (fun _ => call g)) f s
  = match g (st_world s) with
    | (Ok a, w) => f a {| st_world := w; st_log := st_log s ++ [e] |}
    | (Raise x, w) =>
        (Raise x, {| st_world := w; st_log := st_log s ++ [e] |})
    end.
Proof.
  unfold bind at 1. rewrite emit_call.
  destruct (g (st_world s)) as [[a|x] w]; reflexivity.
Qed.

(** [run] once the steps before the transport call have returned: the
    transport call, the second update, the tests and the redaction, each
    one ending the run when it raises. *)
Lemma run_prepared (self : RequestNode) (s : state) (method : string)
  (url h p j : value) (mh mp : dict) (w5 : world) :
  prepared self s method url h p j mh mp w5 ->
  run self s
  = match requests_request method url h p j false w5 with
    | (Ok r, w6) =>
        match vars_update (configured_vars self) [("response", r)] true w6 with
        | (Ok _, w7) =>
            match _run_tests self
                    {| st_world := w7;
                       st_log := st_log s
                                 ++ firstn 8 (calls self method url mh mp h p j
                                                (Some (r, []))) |} with
            | (Ok rs, s9) =>
                match hide_sensitive_info r (st_world s9) with
                | (Ok _, w10) =>
                    (Ok {| response := r;
                           tests_results := rs;
                           no_failure :=
                             forallb (fun t => TestStatus_eqb (status t) PASSED)
                                     rs |},
                     {| st_world := w10; st_log := st_log s9 ++ [EvHide r] |})
                | (Raise e, w10) =>
                    (Raise e,
                     {| st_world := w10; st_log := st_log s9 ++ [EvHide r] |})
                end
            | (Raise e, s9) => (Raise e, s9)
            end
        | (Raise e, w7) =>
            (Raise e,
             {| st_world := w7;
                st_log := st_log s
                          ++ firstn 8 (calls self method url mh mp h p j
                                         (Some (r, []))) |})
        end
    | (Raise e, w6) =>
        (Raise e,
         {| st_world := w6;
            st_log := st_log s ++ calls self method url mh mp h p j None |})
    end.
Proof.
  intros [w1 w2 w3 w4 Hmethod Hurl Hpre Hmh Hheaders Hmp Hparams Hbody].
  unfold run. rewrite Hmethod, bind_lift_ok.
  change (full_url_path self) with (evaluate (joined_path self)).
  change (dict_get_default (spec self) VARS_KEY (VDict []))
    with (configured_vars self).
  unfold evaluate at 1. rewrite bind_emit_call, Hurl.
  unfold logger_info. rewrite bind_emit. simpl st_world.
  unfold update at 1. rewrite bind_emit_call. simpl st_world. rewrite Hpre.
  unfold headers. cbv zeta. rewrite bind_assoc, Hmh, bind_lift_ok.
  unfold evaluate at 1. rewrite bind_emit_call. simpl st_world.
  rewrite Hheaders.
  unfold params. cbv zeta. rewrite bind_assoc, Hmp, bind_lift_ok.
  unfold evaluate at 1. rewrite bind_emit_call. simpl st_world.
  rewrite Hparams.
  unfold body. cbv zeta. unfold evaluate at 1. rewrite bind_emit_call.
  simpl st_world. rewrite Hbody.
  rewrite bind_emit_call. simpl st_world. simpl st_log.
  rewrite <- !app_assoc. simpl app.
  destruct (requests_request method url h p j false w5) as [[r|e] w6];
    [|reflexivity].
  unfold update. rewrite bind_emit_call. simpl st_world. simpl st_log.
  rewrite <- !app_assoc. simpl app.
  destruct (vars_update (configured_vars self) [("response", r)] true w6)
    as [[u|e] w7]; [|reflexivity].
  unfold bind at 1. simpl firstn.
  destruct (_run_tests self _) as [[rs|e] s9]; [|reflexivity].
  rewrite bind_emit_call.
  destruct (hide_sensitive_info r (st_world s9)) as [[u'|e] w10]; reflexivity.
Qed.


Ltac stopped :=
  eexists; split;
  [lia | split; [reflexivity
                | simpl; rewrite <- ?app_assoc, ?app_nil_r; reflexivity]].


(** A run either gets as far as the transport call, or raises before it
    with a log that stops among the first six calls. *)
Lemma run_stops_or_prepares (self : RequestNode) (s : state) :
  (exists method url h p j mh mp w5,
      prepared self s method url h p j mh mp w5) \/
  (exists e n method url mh mp h p j s1,
      n <= 6 /\
      run self s = (Raise e, s1) /\
      st_log s1
      = st_log s ++ firstn n (calls self method url mh mp h p j None)).
Proof.
  unfold run.
  change (full_url_path self) with (evaluate (joined_path self)).
  change (dict_get_default (spec self) VARS_KEY (VDict []))
    with (configured_vars self).
  destruct (http_method self) as [method|e] eqn:Hmethod.
  2:{ right. exists e, 0, "", VNone, [], [], VNone, VNone, VNone.
      rewrite bind_lift_raise. stopped. }
  rewrite bind_lift_ok. unfold evaluate at 1. rewrite bind_emit_call.
  destruct (vars_evaluate (joined_path self) (st_world s))
    as [[url|e] w1] eqn:Hurl.
  2:{ right. exists e, 1, method, VNone, [], [], VNone, VNone, VNone.
      stopped. }
  unfold logger_info. rewrite bind_emit. simpl st_world.
  unfold update at 1. rewrite bind_emit_call. simpl st_world.
  destruct (vars_update (configured_vars self) [] false w1)
    as [[[]|e] w2] eqn:Hpre.
  2:{ right. exists e, 3, method, url, [], [], VNone, VNone, VNone.
      stopped. }
  unfold headers. cbv zeta. rewrite bind_assoc.
  destruct (unpack_onto (ep_headers (endpoint self))
              (dict_get_default (spec self) HEADERS_KEY (VDict [])))
    as [mh|e] eqn:Hmh.
  2:{ right. exists e, 3, method, url, [], [], VNone, VNone, VNone.
      rewrite bind_lift_raise. stopped. }
  rewrite bind_lift_ok. unfold evaluate at 1. rewrite bind_emit_call.
  simpl st_world.
  destruct (vars_evaluate (VDict mh) w2) as [[h|e] w3] eqn:Hheaders.
  2:{ right. exists e, 4, method, url, mh, [], VNone, VNone, VNone.
      stopped. }
  unfold params. cbv zeta. rewrite bind_assoc.
  destruct (unpack_onto (ep_params (endpoint self))
              (dict_get_default (spec self) PARAMS_KEY (VDict [])))
    as [mp|e] eqn:Hmp.
  2:{ right. exists e, 4, method, url, mh, [], h, VNone, VNone.
      rewrite bind_lift_raise. stopped. }
  rewrite bind_lift_ok. unfold evaluate at 1. rewrite bind_emit_call.
  simpl st_world.
  destruct (vars_evaluate (VDict mp) w3) as [[p|e] w4] eqn:Hparams.
  2:{ right. exists e, 5, method, url, mh, mp, h, VNone, VNone.
      stopped. }
  unfold body. cbv zeta. unfold evaluate at 1. rewrite bind_emit_call.
  simpl st_world.
  destruct (vars_evaluate (dict_get_default (spec self) BODY_KEY VNone) w4)
    as [[j|e] w5] eqn:Hbody.
  2:{ right. exists e, 6, method, url, mh, mp, h, p, VNone.
      stopped. }
  left. exists method, url, h, p, j, mh, mp, w5.
  econstructor; eassumption.
Qed.

Lemma run_each_tested (self : RequestNode) (specs : list value) :
  forall (s : state) (rs : list test_result) (s' : state),
    run_each self specs s = (Ok rs, s') ->
    tested self (st_world s) specs rs (st_world s').
Proof.
  induction specs as [|t specs IH]; intros s rs s' H.
  - simpl in H. unfold ret in H. inversion H. constructor.
  - rewrite run_each_cons in H.
    destruct (testing_node_run t self (st_world s)) as [[r|e] w1] eqn:E;
      [|discriminate].
    destruct (run_each self specs _) as [[rs'|e] s2] eqn:E2; [|discriminate].
    inversion H. subst.
    econstructor; [exact E|]. exact (IH _ _ _ E2).
Qed.

Lemma tested_nth (self : RequestNode) (w : world) (specs : list value)
  (rs : list test_result) (w' : world) :
  tested self w specs rs w' ->
  List.length rs = List.length specs /\
  forall i t, nth_error specs i = Some t ->
    exists r wi wi', nth_error rs i = Some r /\
                     testing_node_run t self wi = (Ok r, wi').
Proof.
  induction 1 as [w|w t r w1 specs rs w2 Hrun Hrest [IHl IHn]].
  - split; [reflexivity|]. intros [|i] t E; discriminate.
  - split; [simpl; now rewrite IHl|].
    intros [|i] t' E; simpl in E.
    + inversion E. subst t'. exists r, w, w1. split; [reflexivity | exact Hrun].
    + exact (IHn i t' E).
Qed.

Lemma count_firstn_none (kind : event -> bool) (n : nat) (l : list event) :
  count kind l = 0 -> count kind (firstn n l) = 0.
Proof.
  unfold count. revert n. induction l as [|x l IH]; intros n Z.
  - now rewrite firstn_nil.
  - destruct n as [|n]; [reflexivity|]. simpl in *.
    destruct (kind x); [discriminate|]. now apply IH.
Qed.

Lemma no_request_among_first_six (self : RequestNode) (method : string)
  (url : value) (mh mp : dict) (h p j : value)
  (after : option (Response * list value)) (n : nat) :
  n <= 6 ->
  count is_request (firstn n (calls self method url mh mp h p j after)) = 0.
Proof.
  intro N. do 7 (destruct n as [|n]; [reflexivity|]). lia.
Qed.

Lemma unpack_onto_mapping (a : dict) (v : value) (m : dict) :
  unpack_onto a v = Ok m -> exists b, v = VDict b /\ m = dict_unpack2 a b.
Proof.
  destruct v; simpl; intro H; try discriminate.
  inversion H. now exists d.
Qed.

Lemma in_firstn_in {A : Type} (x : A) (n : nat) (l : list A) :
  In x (firstn n l) -> In x l.
Proof.
  revert n. induction l as [|y l IH]; intros n I.
  - now rewrite firstn_nil in I.
  - destruct n as [|n]; [destruct I|]. simpl in I.
    destruct I as [I|I]; [now left | right; exact (IH n I)].
Qed.

Lemma no_hide_before_second_update (self : RequestNode) (method : string)
  (url : value) (mh mp : dict) (h p j : value) (r r' : Response)
  (specs : list value) :
  ~ In (EvHide r')
       (firstn 8 (calls self method url mh mp h p j (Some (r, specs)))).
Proof.
  simpl. intro I. repeat (destruct I as [I|I]; [discriminate I|]). exact I.
Qed.

Lemma no_hide_among_tests (r : Response) (specs : list value) :
  ~ In (EvHide r) (map EvTest specs).
Proof.
  intro I. apply in_map_iff in I. destruct I as (t & E & _). discriminate E.
Qed.

(** A run either raises without having called the redaction, or has got
    through every step up to the redaction: the steps before the transport
    call, the transport call, the second update and every declared test,
    each in the world the step before it left; the redaction is then
    called in the world the last test left, and closes the run. *)
Lemma run_redacts_or_stops (self : RequestNode) (s : state) :
  (exists e s1 l,
      run self s = (Raise e, s1) /\ st_log s1 = st_log s ++ l /\
      forall r, ~ In (EvHide r) l) \/
  (exists method url h p j mh mp w5 r w6 w7 specs rs w8,
      prepared self s method url h p j mh mp w5 /\
      requests_request method url h p j false w5 = (Ok r, w6) /\
      vars_update (configured_vars self) [("response", r)] true w6
      = (Ok tt, w7) /\
      py_iter (dict_get_default (spec self) "tests" (VList [])) = Ok specs /\
      tested self w7 specs rs w8 /\
      run self s
      = (match fst (hide_sensitive_info r w8) with
         | Ok _ =>
             Ok {| response := r;
                   tests_results := rs;
                   no_failure :=
                     forallb (fun t => TestStatus_eqb (status t) PASSED) rs |}
         | Raise e => Raise e
         end,
         {| st_world := snd (hide_sensitive_info r w8);
            st_log := st_log s
                      ++ calls self method url mh mp h p j
                           (Some (r, specs)) |})).
Proof.
  destruct (run_stops_or_prepares self s)
    as [(method & url & h & p & j & mh & mp & w5 & P)
       |(e & n & method & url & mh & mp & h & p & j & s1 & _ & F & L)].
  2:{ left. exists e, s1. eexists. split; [exact F|]. split; [exact L|].
      intros r I. apply in_firstn_in in I. simpl in I.
      repeat (destruct I as [I|I]; [discriminate I|]). exact I. }
  rewrite (run_prepared P).
  destruct (requests_request method url h p j false w5) as [[r|e] w6] eqn:R.
  2:{ left. do 3 eexists. split; [reflexivity|]. split; [reflexivity|].
      intros r I. simpl in I.
      repeat (destruct I as [I|I]; [discriminate I|]). exact I. }
  destruct (vars_update (configured_vars self) [("response", r)] true w6)
    as [[[]|e] w7] eqn:U.
  2:{ left. do 3 eexists. split; [reflexivity|]. split; [reflexivity|].
      intro r'. apply no_hide_before_second_update. }
  unfold _run_tests.
  destruct (py_iter (dict_get_default (spec self) "tests" (VList [])))
    as [specs|e] eqn:S.
  2:{ rewrite bind_lift_raise.
      left. do 3 eexists. split; [reflexivity|]. split; [reflexivity|].
      intro r'. apply no_hide_before_second_update. }
  rewrite bind_lift_ok.
  match goal with
  | |- context [run_each self specs ?s8] =>
      destruct (run_each_log self specs s8) as [k L];
      destruct (run_each self specs s8) as [[rs|e] s9] eqn:T
  end.
  2:{ left.
      exists e, s9,
        (firstn 8 (calls self method url mh mp h p j (Some (r, [])))
         ++ map EvTest (firstn k specs)).
      split; [reflexivity|]. simpl in L.
      split; [rewrite L, <- app_assoc; reflexivity|].
      intros r' I. apply in_app_or in I. destruct I as [I|I].
      - eapply no_hide_before_second_update. exact I.
      - eapply no_hide_among_tests. exact I. }
  right. exists method, url, h, p, j, mh, mp, w5, r, w6, w7, specs, rs,
           (st_world s9).
  split; [exact P|].
  split; [first [exact R | reflexivity]|].
  split; [first [exact U | reflexivity]|].
  split; [first [exact S | reflexivity]|].
  split; [exact (run_each_tested _ _ _ T)|].
  destruct (run_each_ok _ _ _ T) as [L9 _]. simpl in L9.
  assert (Q : st_log s9 ++ [EvHide r]
              = st_log s ++ calls self method url mh mp h p j (Some (r, specs))).
  { rewrite L9. unfold calls. simpl. rewrite <- !app_assoc. reflexivity. }
  rewrite Q.
  destruct (hide_sensitive_info r (st_world s9)) as [[u|e] w10]; reflexivity.
Qed.

(** [_run_tests] logs tests only, whatever it returns or raises. *)
Lemma _run_tests_log (self : RequestNode) (s : state) :
  exists l, st_log (snd (_run_tests self s)) = st_log s ++ map EvTest l.
Proof.
  unfold _run_tests.
  destruct (py_iter (dict_get_default (spec self) "tests" (VList [])))
    as [specs|e].
  - rewrite bind_lift_ok. destruct (run_each_log self specs s) as [n L].
    now exists (firstn n specs).
  - rewrite bind_lift_raise. exists []. simpl. now rewrite app_nil_r.
Qed.

(** Once the steps before the transport call have returned, the log of
    the run holds the seven calls up to the transport call, and no
    transport call after it. *)
Lemma run_prepared_log (self : RequestNode) (s : state) (method : string)
  (url h p j : value) (mh mp : dict) (w5 : world) :
  prepared self s method url h p j mh mp w5 ->
  exists after : list event,
    st_log (snd (run self s))
    = st_log s
      ++ [EvEvaluate (joined_path self);
          EvLogInfo method url;
          EvUpdate (configured_vars self) [] false;
          EvEvaluate (VDict mh);
          EvEvaluate (VDict mp);
          EvEvaluate (dict_get_default (spec self) BODY_KEY VNone);
          EvRequest method url h p j false]
      ++ after /\
    count is_request after = 0 /\
    forall b, fst (run self s) = Ok b ->
              fst (requests_request method url h p j false w5)
              = Ok (response b).
Proof.
  intro P. rewrite (run_prepared P).
  destruct (requests_request method url h p j false w5) as [[r|e] w6].
  2:{ exists []. split; [reflexivity|]. split; [reflexivity | discriminate]. }
  destruct (vars_update (configured_vars self) [("response", r)] true w6)
    as [[u|e] w7].
  2:{ exists [EvUpdate (configured_vars self) [("response", r)] true].
      split; [reflexivity|]. split; [reflexivity | discriminate]. }
  match goal with
  | |- context [_run_tests self ?s8] =>
      destruct (_run_tests_log self s8) as [l L];
      destruct (_run_tests self s8) as [[rs|e] s9]
  end; simpl in L.
  2:{ exists (EvUpdate (configured_vars self) [("response", r)] true
              :: map EvTest l).
      simpl. rewrite L, <- app_assoc.
      split; [reflexivity|]. split; [|discriminate].
      change (count is_request (map EvTest l) = 0).
      now apply count_tests. }
  exists (EvUpdate (configured_vars self) [("response", r)] true
          :: map EvTest l ++ [EvHide r]).
  assert (Z : count is_request
                (EvUpdate (configured_vars self) [("response", r)] true
                 :: map EvTest l ++ [EvHide r]) = 0).
  { change (count is_request (map EvTest l ++ [EvHide r]) = 0).
    rewrite count_app, count_tests by reflexivity. reflexivity. }
  destruct (hide_sensitive_info r (st_world s9)) as [[u'|e] w10]; simpl;
    rewrite L, <- !app_assoc;
    (split; [reflexivity|]); (split; [exact Z|]).
  - intros b E. inversion E. reflexivity.
  - discriminate.
Qed.

End RunSteps.

(** ** The scenario *)

Lemma demo_run : @run Demo.C Demo.node Demo.s0 = (Ok Demo.result0, Demo.s_end).
Proof. reflexivity. Qed.

Lemma demo_plain_run :
  @run Demo.C Demo.plain Demo.s0 = (Ok Demo.plain_result, Demo.plain_end).
Proof. reflexivity. Qed.

(** ** The run *)

Section Run.

Context {C : Collaborators}.

(** C1.  A run that returns updated the endpoint's variables twice, once
    on each side of the one transport call, and went on with what each
    update left.  The first update is given the configured vars, no extras
    and [preevaluate=False], in the world the evaluation of the URL left;
    the headers, the params and the body are evaluated in the worlds that
    follow the one this update left, and the transport is called in the
    last of them.  The second update is given the same vars,
    [preevaluate=True] and the extras that bind the name response to the
    response the transport returned, in the world the transport left; the
    tests run from the world this update left, each in the world the one
    before it left, and the redaction gets the world of the last.  The log
    holds these calls and no other update. *)
Theorem run_two_phase_update (self : RequestNode) (s : state) (b : bundle)
  (s' : state) :
  run self s = (Ok b, s') ->
  exists (method : string) (url h p j : value) (mh mp : dict)
         (specs : list value) (w1 w2 w3 w4 w5 w6 w7 w8 : world),
    st_log s'
    = st_log s
      ++ [EvEvaluate (joined_path self); EvLogInfo method url]
      ++ [EvUpdate (configured_vars self) [] false]
      ++ [EvEvaluate (VDict mh); EvEvaluate (VDict mp);
          EvEvaluate (dict_get_default (spec self) BODY_KEY VNone)]
      ++ [EvRequest method url h p j false;
          EvUpdate (configured_vars self) [("response", response b)] true]
      ++ map EvTest specs ++ [EvHide (response b)] /\
    configured_vars self = dict_get_default (spec self) "vars" (VDict []) /\
    http_method self = Ok method /\
    vars_evaluate (joined_path self) (st_world s) = (Ok url, w1) /\
    vars_update (configured_vars self) [] false w1 = (Ok tt, w2) /\
    unpack_onto (ep_headers (endpoint self))
      (dict_get_default (spec self) HEADERS_KEY (VDict [])) = Ok mh /\
    vars_evaluate (VDict mh) w2 = (Ok h, w3) /\
    unpack_onto (ep_params (endpoint self))
      (dict_get_default (spec self) PARAMS_KEY (VDict [])) = Ok mp /\
    vars_evaluate (VDict mp) w3 = (Ok p, w4) /\
    vars_evaluate (dict_get_default (spec self) BODY_KEY VNone) w4
    = (Ok j, w5) /\
    requests_request method url h p j false w5 = (Ok (response b), w6) /\
    vars_update (configured_vars self) [("response", response b)] true w6
    = (Ok tt, w7) /\
    py_iter (dict_get_default (spec self) "tests" (VList [])) = Ok specs /\
    tested self w7 specs (tests_results b) w8 /\
    hide_sensitive_info (response b) w8 = (Ok tt, st_world s').
Proof.
  intro H. apply run_completed in H.
  destruct H as [method url h p j mh mp specs w1 w2 w3 w4 w5 w6 w7 w8
                 Hmethod Hurl Hpre Hmh Hheaders Hmp Hparams Hbody Hrequest
                 Hpost Hspecs Htests Hhide Hlog Hflag].
  specialize (Htests []). apply run_each_tested in Htests. simpl in Htests.
  exists method, url, h, p, j, mh, mp, specs, w1, w2, w3, w4, w5, w6, w7, w8.
  split; [exact Hlog|]. repeat split; assumption.
Qed.

(** C2, as the code has it.  A run that returns resolved the method and
    the URL before the pre-call update, and the headers, the params and
    the body after it, in that order and before the transport call: the
    merged headers were evaluated in the world the pre-call update left,
    so a binding that this update stored is there for them. *)
Theorem run_resolution_order (self : RequestNode) (s : state) (b : bundle)
  (s' : state) :
  run self s = (Ok b, s') ->
  exists (method : string) (url h p j : value) (mh mp : dict)
         (w1 w2 w3 w4 w5 : world) (rest : list event),
    st_log s'
    = st_log s
      ++ [EvEvaluate (joined_path self);
          EvLogInfo method url;
          EvUpdate (configured_vars self) [] false;
          EvEvaluate (VDict mh);
          EvEvaluate (VDict mp);
          EvEvaluate (dict_get_default (spec self) BODY_KEY VNone);
          EvRequest method url h p j false]
      ++ rest /\
    http_method self = Ok method /\
    vars_evaluate (joined_path self) (st_world s) = (Ok url, w1) /\
    vars_update (configured_vars self) [] false w1 = (Ok tt, w2) /\
    unpack_onto (ep_headers (endpoint self))
      (dict_get_default (spec self) HEADERS_KEY (VDict [])) = Ok mh /\
    vars_evaluate (VDict mh) w2 = (Ok h, w3) /\
    unpack_onto (ep_params (endpoint self))
      (dict_get_default (spec self) PARAMS_KEY (VDict [])) = Ok mp /\
    vars_evaluate (VDict mp) w3 = (Ok p, w4) /\
    vars_evaluate (dict_get_default (spec self) BODY_KEY VNone) w4
    = (Ok j, w5).
Proof.
  intro H. apply run_completed in H. destruct H.
  exists method, url, h, p, j, mh, mp, w1, w2, w3, w4, w5,
    ([EvUpdate (configured_vars self) [("response", response b)] true]
     ++ map EvTest specs ++ [EvHide (response b)]).
  split; [exact Hlog|]. repeat split; assumption.
Qed.

(** C3.  The flag [no_failure] of the bundle is true exactly when every
    test result has the status PASSED.  With no test specification (the
    key tests absent, or an empty list) there is no test result and the
    flag is true; one FAILED or ERROR result makes it false. *)
Theorem no_failure_iff_all_passed (self : RequestNode) (s : state)
  (b : bundle) (s' : state) :
  run self s = (Ok b, s') ->
  (no_failure b = true <->
   Forall (fun t => status t = PASSED) (tests_results b)) /\
  (dict_get "tests" (spec self) = None \/
   dict_get "tests" (spec self) = Some (VList []) ->
   tests_results b = [] /\ no_failure b = true) /\
  (forall t, In t (tests_results b) ->
             status t = FAILED \/ status t = ERROR ->
             no_failure b = false).
Proof.
  intro H. apply run_completed in H. destruct H.
  assert (E : forall t, TestStatus_eqb (status t) PASSED = true
                        <-> status t = PASSED).
  { intro t. destruct (status t); simpl; split; congruence. }
  split; [|split].
  - rewrite Hflag, forallb_forall, Forall_forall.
    split; intros A t I; apply E, A, I.
  - intro K.
    assert (specs = []) as ->.
    { unfold dict_get_default in Hspecs.
      destruct K as [K|K]; rewrite K in Hspecs; simpl in Hspecs; congruence. }
    specialize (Htests []). simpl in Htests. unfold ret in Htests.
    inversion Htests as [[R W]].
    rewrite Hflag, <- R. split; reflexivity.
  - intros t I K. rewrite Hflag.
    destruct (forallb _ (tests_results b)) eqn:F; [|reflexivity].
    rewrite forallb_forall in F. specialize (F t I). apply E in F.
    destruct K; congruence.
Qed.

(** C8.  In every run the redaction comes after all the tests.  Whatever
    the run returns or raises, when [hide_sensitive_info] was called on a
    response then the steps before the transport call had returned, the
    transport had returned that response, the second update had bound it,
    and every declared test had run and returned, each in the world the
    one before it left, the first in the world the second update left;
    the calls of the run are those of a complete run, the redaction last,
    and the redaction acted on the world the last test left, a world it
    had not touched.  A run that returns did call the redaction, on the
    response of its bundle, and ends in the world the redaction left: the
    tests saw the response as the transport returned it, the bundle holds
    it as the redaction left it. *)
Theorem redaction_after_tests (self : RequestNode) (s : state)
  (added : list event) :
  st_log (snd (run self s)) = st_log s ++ added ->
  (forall r, In (EvHide r) added ->
     exists (method : string) (url h p j : value) (mh mp : dict)
            (w5 w6 w7 : world) (specs : list value) (rs : list test_result)
            (w8 : world),
       prepared self s method url h p j mh mp w5 /\
       requests_request method url h p j false w5 = (Ok r, w6) /\
       vars_update (configured_vars self) [("response", r)] true w6
       = (Ok tt, w7) /\
       py_iter (dict_get_default (spec self) "tests" (VList [])) = Ok specs /\
       tested self w7 specs rs w8 /\
       added = calls self method url mh mp h p j (Some (r, specs)) /\
       fst (run self s)
       = match fst (hide_sensitive_info r w8) with
         | Ok _ =>
             Ok {| response := r;
                   tests_results := rs;
                   no_failure :=
                     forallb (fun t => TestStatus_eqb (status t) PASSED) rs |}
         | Raise e => Raise e
         end /\
       st_world (snd (run self s)) = snd (hide_sensitive_info r w8)) /\
  (forall (b : bundle) (s' : state),
     run self s = (Ok b, s') ->
     exists (before : list event) (specs : list value) (w6 w7 w8 : world),
       added = before ++ map EvTest specs ++ [EvHide (response b)] /\
       count is_test before = 0 /\
       count is_hide before = 0 /\
       py_iter (dict_get_default (spec self) "tests" (VList [])) = Ok specs /\
       vars_update (configured_vars self) [("response", response b)] true w6
       = (Ok tt, w7) /\
       tested self w7 specs (tests_results b) w8 /\
       hide_sensitive_info (response b) w8 = (Ok tt, st_world s')).
Proof.
  intro A. split.
  - intros r0 I.
    destruct (run_redacts_or_stops self s)
      as [(e & s1 & l & F & L & N)
         |(method & url & h & p & j & mh & mp & w5 & r & w6 & w7 & specs & rs
           & w8 & P & R & U & S & T & F)].
    + rewrite F in A. simpl in A. rewrite L in A.
      apply app_inv_head in A. subst l. destruct (N r0 I).
    + rewrite F in A. simpl in A. apply app_inv_head in A.
      assert (r0 = r) as ->.
      { rewrite <- A in I. unfold calls in I.
        apply in_app_or in I. destruct I as [I|I].
        - simpl in I. repeat (destruct I as [I|I]; [discriminate I|]).
          destruct I.
        - destruct I as [I|I]; [discriminate I|].
          apply in_app_or in I. destruct I as [I|I].
          + destruct (no_hide_among_tests _ _ I).
          + destruct I as [I|[]]. now inversion I. }
      exists method, url, h, p, j, mh, mp, w5, w6, w7, specs, rs, w8.
      rewrite F. simpl. repeat split; try assumption. now symmetry.
  - intros b s' H. rewrite H in A. simpl in A.
    apply run_completed in H.
    destruct H as [method url h p j mh mp specs w1 w2 w3 w4 w5 w6 w7 w8
                   Hmethod Hurl Hpre Hmh Hheaders Hmp Hparams Hbody Hrequest
                   Hpost Hspecs Htests Hhide Hlog Hflag].
    specialize (Htests []). apply run_each_tested in Htests. simpl in Htests.
    rewrite Hlog in A. apply app_inv_head in A.
    exists [EvEvaluate (joined_path self);
            EvLogInfo method url;
            EvUpdate (configured_vars self) [] false;
            EvEvaluate (VDict mh);
            EvEvaluate (VDict mp);
            EvEvaluate (dict_get_default (spec self) BODY_KEY VNone);
            EvRequest method url h p j false;
            EvUpdate (configured_vars self) [("response", response b)] true],
      specs, w6, w7, w8.
    split; [now symmetry|]. repeat split; assumption.
Qed.

(** C9, as the code has it.  Whatever a run returns or raises, it calls
    the transport at most once.  When the steps before the call have
    returned (the method, the URL, the first update, the headers, the
    params and the body), it calls the transport exactly once, whatever
    the transport and the steps after it then do: the call is the seventh
    of the run, it is given the method that [http_method] gave, the URL,
    headers, params and body that the evaluator returned for this run and
    [allow_redirects=False], and when the run returns, the response of
    the bundle is what this call returned.  When one of these steps
    raises, the run raises without having called the transport.  A run
    that returns went through all of them. *)
Theorem transport_invoked_once (self : RequestNode) (s : state) :
  count is_request (st_log (snd (run self s)))
  <= count is_request (st_log s) + 1 /\
  (forall (method : string) (url h p j : value) (mh mp : dict) (w5 : world),
     prepared self s method url h p j mh mp w5 ->
     called_transport_once (run self) s /\
     exists after : list event,
       st_log (snd (run self s))
       = st_log s
         ++ [EvEvaluate (joined_path self);
             EvLogInfo method url;
             EvUpdate (configured_vars self) [] false;
             EvEvaluate (VDict mh);
             EvEvaluate (VDict mp);
             EvEvaluate (dict_get_default (spec self) BODY_KEY VNone);
             EvRequest method url h p j false]
         ++ after /\
       count is_request after = 0 /\
       forall b, fst (run self s) = Ok b ->
                 fst (requests_request method url h p j false w5)
                 = Ok (response b)) /\
  ((forall (method : string) (url h p j : value) (mh mp : dict) (w5 : world),
       ~ prepared self s method url h p j mh mp w5) ->
   (exists e, fst (run self s) = Raise e) /\
   count is_request (st_log (snd (run self s)))
   = count is_request (st_log s)) /\
  (forall (b : bundle) (s' : state),
     run self s = (Ok b, s') ->
     exists (method : string) (url h p j : value) (mh mp : dict) (w5 : world),
       prepared self s method url h p j mh mp w5).
Proof.
  split; [apply request_bound_run|]. split; [|split].
  - intros method url h p j mh mp w5 P.
    destruct (run_prepared_log P) as (after & L & Z & B).
    split.
    + unfold called_transport_once. rewrite L, !count_app, Z.
      unfold count at 2. simpl. lia.
    + exists after. repeat split; assumption.
  - intro N.
    destruct (run_stops_or_prepares self s)
      as [(method & url & h & p & j & mh & mp & w5 & P)
         |(e & n & method & url & mh & mp & h & p & j & s1 & B & F & L)].
    + destruct (N _ _ _ _ _ _ _ _ P).
    + rewrite F. simpl. split; [now exists e|].
      rewrite L, count_app, no_request_among_first_six by exact B. lia.
  - intros b s' H. apply run_completed in H.
    destruct H as [method url h p j mh mp specs w1 w2 w3 w4 w5 w6 w7 w8
                   Hmethod Hurl Hpre Hmh Hheaders Hmp Hparams Hbody Hrequest
                   Hpost Hspecs Htests Hhide Hlog Hflag].
    exists method, url, h, p, j, mh, mp, w5. econstructor; eassumption.
Qed.

(** C10.  A node whose spec has no method key has the method GET: the
    default is folded to upper case and is allowed, so [http_method] does
    not raise, and a run that returns sent its one request with GET. *)
Theorem http_method_defaults_to_get (self : RequestNode) :
  dict_get METHOD_KEY (spec self) = None ->
  http_method self = Ok "GET" /\
  forall (s : state) (b : bundle) (s' : state),
    run self s = (Ok b, s') ->
    exists (before after : list event) (url h p j : value),
      st_log s'
      = st_log s ++ before ++ [EvRequest "GET" url h p j false] ++ after /\
      count is_request before = 0 /\
      count is_request after = 0.
Proof.
  intro G.
  assert (M : http_method self = Ok "GET").
  { unfold http_method, dict_get_default. rewrite G. reflexivity. }
  split; [exact M|].
  intros s b s' H. apply run_completed in H. destruct H.
  rewrite M in Hmethod. inversion Hmethod. subst method.
  exists [EvEvaluate (joined_path self);
          EvLogInfo "GET" url;
          EvUpdate (configured_vars self) [] false;
          EvEvaluate (VDict mh);
          EvEvaluate (VDict mp);
          EvEvaluate (dict_get_default (spec self) BODY_KEY VNone)],
    ([EvUpdate (configured_vars self) [("response", response b)] true]
     ++ map EvTest specs ++ [EvHide (response b)]),
    url, h, p, j.
  split; [exact Hlog|].
  split; [reflexivity|].
  rewrite !count_app, count_tests by reflexivity. reflexivity.
Qed.

End Run.

(** ** The claims on the scenario *)

(** A witness of C1: in the scenario the first update stores the two
    variables as they are written, the second binds the response and
    stores the second variable as the value the response gives it, and
    the tests run in the world the second update left. *)
Lemma run_two_phase_update_witness :
  exists (w1 w2 w6 w7 w8 : Reference.ref_world) (specs : list value),
    Reference.ref_update Demo.configured [] false w1 = (Ok tt, w2) /\
    w2 = Cases.first_update_only /\
    Reference.ref_update Demo.configured [("response", 0)] true w6
    = (Ok tt, w7) /\
    w7 = Demo.world_tests /\
    @tested Demo.C Demo.node w7 specs (tests_results Demo.result0) w8 /\
    Reference.ref_hide ["Authorization"] "***" 0 w8 = (Ok tt, Demo.world_end).
Proof.
  destruct (@run_two_phase_update Demo.C Demo.node Demo.s0 Demo.result0
              Demo.s_end eq_refl)
    as (method & url & h & p & j & mh & mp & specs & w1 & w2 & w3 & w4 & w5
        & w6 & w7 & w8 & _ & _ & Hmethod & Hurl & Hpre & Hmh & Hheaders & Hmp
        & Hparams & Hbody & Hrequest & Hpost & _ & Htests & Hhide).
  exists w1, w2, w6, w7, w8, specs.
  split; [exact Hpre|]. split; [|split; [exact Hpost|split; [|split; [exact Htests | exact Hhide]]]].
  - lazy in Hurl. inversion Hurl. subst.
    lazy in Hpre. inversion Hpre. reflexivity.
  - lazy in Hmethod. inversion Hmethod. subst.
    lazy in Hurl. inversion Hurl. subst.
    lazy in Hpre. inversion Hpre. subst.
    lazy in Hmh. inversion Hmh. subst.
    lazy in Hheaders. inversion Hheaders. subst.
    lazy in Hmp. inversion Hmp. subst.
    lazy in Hparams. inversion Hparams. subst.
    lazy in Hbody. inversion Hbody. subst.
    lazy in Hrequest. inversion Hrequest. subst.
    lazy in Hpost. inversion Hpost. reflexivity.
Defined.

(** C2 fails as stated.  In the scenario the merged headers are evaluated
    at position 3 of the log and the pre-call update stands at position
    2; in the namespace the run started from the header's variable is
    undefined, and the request went out with the value that the pre-call
    update of this very run had stored. *)
Lemma headers_resolved_after_precall_update :
  ~ resolved_before_precall_update
      (st_log (snd (@run Demo.C Demo.node Demo.s0))) /\
  fst (@headers Demo.C Demo.node Demo.s0)
  = Raise (TemplateResolutionError "token") /\
  In (EvRequest "GET" (VStr "/api/users")
        (VDict [("Accept", VStr "json"); ("X-Token", VStr "abc")])
        (VDict [("page", VInt 1)]) VNone false)
     (st_log (snd (@run Demo.C Demo.node Demo.s0))).
Proof.
  rewrite demo_run. split; [|split].
  - intro R.
    specialize (R 3 2 (VDict [("Accept", VStr "json");
                             ("X-Token", VStr "${token}")])
                  Demo.configured [] eq_refl eq_refl).
    lia.
  - reflexivity.
  - simpl. do 6 right. left. reflexivity.
Qed.

(** A witness of the amended C2: the first seven calls of the scenario. *)
Lemma run_resolution_order_witness :
  exists (method : string) (url h p j : value) (mh mp : dict)
         (rest : list (@event Demo.C)),
    Demo.log_end
    = [EvEvaluate (VStr "/api/users");
       EvLogInfo method url;
       EvUpdate Demo.configured [] false;
       EvEvaluate (VDict mh);
       EvEvaluate (VDict mp);
       EvEvaluate VNone;
       EvRequest method url h p j false]
      ++ rest.
Proof.
  destruct (@run_resolution_order Demo.C Demo.node Demo.s0 Demo.result0
              Demo.s_end eq_refl)
    as (method & url & h & p & j & mh & mp & w1 & w2 & w3 & w4 & w5 & rest
        & L & _).
  exists method, url, h, p, j, mh, mp, rest. exact L.
Defined.

(** A witness of C3: the scenario has a failed test. *)
Lemma no_failure_iff_all_passed_witness :
  no_failure Demo.result0 = false /\
  (no_failure Demo.result0 = true <->
   Forall (fun t => status t = PASSED) (tests_results Demo.result0)).
Proof.
  split; [reflexivity|].
  exact (proj1 (@no_failure_iff_all_passed Demo.C Demo.node Demo.s0
                  Demo.result0 Demo.s_end eq_refl)).
Defined.

(** A witness of C8: the redaction is the last call of the scenario; the
    two tests ran before it, the second in the world [Demo.world_tests]
    that the first left, where the Authorization header is still
    secret123; the redaction turned that world into [Demo.world_end],
    where the header is masked. *)
Lemma redaction_after_tests_witness :
  In (@EvHide Demo.C 0) Demo.log_end /\
  exists (specs : list value) (rs : list test_result)
         (w7 w8 : Reference.ref_world),
    @tested Demo.C Demo.node w7 specs rs w8 /\
    specs = [Demo.auth_test; Demo.status_test] /\
    rs = tests_results Demo.result0 /\
    w7 = Demo.world_tests /\
    w8 = Demo.world_tests /\
    Reference.lookup w8 "response.headers.Authorization"
    = Ok (VStr "secret123") /\
    snd (Reference.ref_hide ["Authorization"] "***" 0 w8) = Demo.world_end /\
    Reference.lookup Demo.world_end "response.headers.Authorization"
    = Ok (VStr "***").
Proof.
  assert (I : In (@EvHide Demo.C 0) Demo.log_end)
    by (simpl; do 10 right; left; reflexivity).
  split; [exact I|].
  destruct (proj1 (@redaction_after_tests Demo.C Demo.node Demo.s0
                     Demo.log_end eq_refl) 0 I)
    as (method & url & h & p & j & mh & mp & w5 & w6 & w7 & specs & rs & w8
        & P & R & U & S & T & _).
  destruct P as [w1 w2 w3 w4 Hmethod Hurl Hpre Hmh Hheaders Hmp Hparams Hbody].
  lazy in Hmethod. inversion Hmethod. subst.
  lazy in Hurl. inversion Hurl. subst.
  lazy in Hpre. inversion Hpre. subst.
  lazy in Hmh. inversion Hmh. subst.
  lazy in Hheaders. inversion Hheaders. subst.
  lazy in Hmp. inversion Hmp. subst.
  lazy in Hparams. inversion Hparams. subst.
  lazy in Hbody. inversion Hbody. subst.
  lazy in R. inversion R. subst.
  lazy in U. inversion U. subst.
  lazy in S. inversion S. subst.
  exists [Demo.auth_test; Demo.status_test], rs, Demo.world_tests, w8.
  inversion T as [|wa t1 r1 wb specs1 rs1 wc Hr1 T1]. subst.
  lazy in Hr1. inversion Hr1. subst.
  inversion T1 as [|wa t2 r2 wb specs2 rs2 wc Hr2 T2]. subst.
  lazy in Hr2. inversion Hr2. subst.
  inversion T2. subst.
  split; [exact T|]. repeat split.
Defined.

(** C9 fails as stated.  A run whose method is not allowed raises when it
    reads the method, before anything else: it makes no transport call at
    all. *)
Lemma invalid_method_sends_nothing :
  ~ @called_transport_once Demo.C _ (@run Demo.C Cases.fetch) Demo.s0 /\
  @run Demo.C Cases.fetch Demo.s0
  = (Raise (HTTPMethodNotAllowedError "FETCH" ALLOWED_HTTP_METHODS), Demo.s0).
Proof.
  split; [|reflexivity].
  unfold called_transport_once. intro H. lazy in H. discriminate H.
Qed.

(** A witness of the amended C9: the steps of the scenario before the
    transport call return, and its run calls the transport once, seventh,
    with the method GET, the evaluated URL, headers and params, no body
    and no redirects. *)
Lemma transport_invoked_once_witness :
  @called_transport_once Demo.C _ (@run Demo.C Demo.node) Demo.s0 /\
  exists after : list (@event Demo.C),
    Demo.log_end
    = [EvEvaluate (VStr "/api/users");
       EvLogInfo "GET" (VStr "/api/users");
       EvUpdate Demo.configured [] false;
       EvEvaluate (VDict [("Accept", VStr "json"); ("X-Token", VStr "${token}")]);
       EvEvaluate (VDict [("page", VInt 1)]);
       EvEvaluate VNone;
       EvRequest "GET" (VStr "/api/users") Demo.sent_headers
         (VDict [("page", VInt 1)]) VNone false]
      ++ after /\
    count is_request after = 0.
Proof.
  assert (P : @prepared Demo.C Demo.node Demo.s0 "GET"
                (VStr "/api/users") Demo.sent_headers
                (VDict [("page", VInt 1)]) VNone
                [("Accept", VStr "json"); ("X-Token", VStr "${token}")]
                [("page", VInt 1)] Cases.first_update_only)
    by (econstructor; reflexivity).
  destruct (proj1 (proj2 (@transport_invoked_once Demo.C Demo.node Demo.s0))
              _ _ _ _ _ _ _ _ P)
    as (O & after & L & Z & _).
  split; [exact O|]. exists after. split; [exact L | exact Z].
Defined.

(** In the scenario the tests ran on the response as the server sent it:
    the test on the Authorization header passed against secret123, and
    the redaction then masked the header in the same object, which the
    namespace and the bundle both refer to. *)
Example demo_tests_see_unredacted_response :
  @run_each Demo.C Demo.node [Demo.auth_test; Demo.status_test]
    (@Build_state Demo.C Demo.world_tests [])
  = (Ok (tests_results Demo.result0),
     @Build_state Demo.C Demo.world_tests
       [EvTest Demo.auth_test; EvTest Demo.status_test]) /\
  Reference.ref_hide ["Authorization"] "***" 0 Demo.world_tests
  = (Ok tt, Demo.world_end) /\
  Reference.lookup Demo.world_tests "response.headers.Authorization"
  = Ok (VStr "secret123") /\
  Reference.lookup Demo.world_end "response.headers.Authorization"
  = Ok (VStr "***").
Proof. repeat split. Qed.

(** A witness of C10: the node without a method. *)
Lemma http_method_defaults_to_get_witness :
  dict_get METHOD_KEY (spec Demo.plain) = None /\
  http_method Demo.plain = Ok "GET".
Proof.
  split; [reflexivity|].
  exact (proj1 (@http_method_defaults_to_get Demo.C Demo.plain eq_refl)).
Defined.

(** * Further properties *)

(** ** Runs that stop early *)

Section Stops.

Context {C : Collaborators}.

(** X1.  The method is checked before anything else happens: when
    [http_method] raises, [run] raises the same error from every state and
    leaves the state as it found it, so that no evaluator call, no update
    of the variables and no transport call was made. *)
Theorem run_rejects_method_first (self : RequestNode) (e : exn) (s : state) :
  http_method self = Raise e ->
  run self s = (Raise e, s).
Proof. intro H. unfold run. rewrite H. apply bind_lift_raise. Qed.

(** X2.  An error of the transport call is not caught: when the steps
    before the call have returned and [requests.request] raises, [run]
    raises the same error in the world the transport left, after the seven
    calls up to the transport call and nothing else; the variables keep
    the bindings of the first update, no second update is made, no test
    runs and the redaction is not called. *)
Theorem transport_error_propagates (self : RequestNode) (s : state)
  (method : string) (url h p j : value) (mh mp : dict) (w5 w6 : world)
  (e : exn) :
  prepared self s method url h p j mh mp w5 ->
  requests_request method url h p j false w5 = (Raise e, w6) ->
  run self s
  = (Raise e,
     {| st_world := w6;
        st_log := st_log s ++ calls self method url mh mp h p j None |}) /\
  count is_update (calls self method url mh mp h p j None) = 1 /\
  count is_test (calls self method url mh mp h p j None) = 0 /\
  count is_hide (calls self method url mh mp h p j None) = 0.
Proof.
  intros P R. rewrite (run_prepared P), R. repeat split.
Qed.

(** X3.  An error of the second update is not caught either: when the
    transport has returned the response and the update that binds it
    raises (a variable that refers to a field the response lacks), [run]
    raises the same error in the world that update left, after the eight
    calls up to it; no test has run and the redaction has not been
    called. *)
Theorem second_update_error_skips_tests (self : RequestNode) (s : state)
  (method : string) (url h p j : value) (mh mp : dict) (w5 w6 w7 : world)
  (r : Response) (e : exn) :
  prepared self s method url h p j mh mp w5 ->
  requests_request method url h p j false w5 = (Ok r, w6) ->
  vars_update (configured_vars self) [("response", r)] true w6 = (Raise e, w7) ->
  run self s
  = (Raise e,
     {| st_world := w7;
        st_log := st_log s
                  ++ firstn 8 (calls self method url mh mp h p j
                                 (Some (r, []))) |}) /\
  count is_test (firstn 8 (calls self method url mh mp h p j (Some (r, []))))
  = 0 /\
  count is_hide (firstn 8 (calls self method url mh mp h p j (Some (r, []))))
  = 0.
Proof.
  intros P R U. rewrite (run_prepared P), R, U. repeat split.
Qed.

(** X4.  An error of the tests is not caught and skips the redaction:
    when the transport has returned the response, the second update has
    returned and [_run_tests] raises, [run] raises the same error and ends
    in the very state the tests left, [hide_sensitive_info] not having
    been called. *)
Theorem raising_tests_skip_redaction (self : RequestNode) (s : state)
  (method : string) (url h p j : value) (mh mp : dict) (w5 w6 w7 : world)
  (r : Response) (e : exn) (s9 : state) :
  prepared self s method url h p j mh mp w5 ->
  requests_request method url h p j false w5 = (Ok r, w6) ->
  vars_update (configured_vars self) [("response", r)] true w6 = (Ok tt, w7) ->
  _run_tests self
    {| st_world := w7;
       st_log := st_log s
                 ++ firstn 8 (calls self method url mh mp h p j
                                (Some (r, []))) |}
  = (Raise e, s9) ->
  run self s = (Raise e, s9) /\
  count is_hide (st_log s9) = count is_hide (st_log s).
Proof.
  intros P R U T. rewrite (run_prepared P), R, U, T. split; [reflexivity|].
  unfold _run_tests in T.
  destruct (py_iter (dict_get_default (spec self) "tests" (VList [])))
    as [specs|e0].
  - rewrite bind_lift_ok in T.
    destruct (run_each_log self specs
                {| st_world := w7;
                   st_log := st_log s
                             ++ firstn 8 (calls self method url mh mp h p j
                                            (Some (r, []))) |}) as [n L].
    rewrite T in L. simpl in L. rewrite L, !count_app.
    rewrite count_tests by reflexivity. unfold count at 2. simpl. lia.
  - rewrite bind_lift_raise in T. inversion T. subst. simpl.
    rewrite count_app. unfold count at 2. simpl. lia.
Qed.

(** X5.  The steps of [completed] are enough for a run to return: when
    every step returned as [completed] lists them, [run] returns the
    bundle in the final state. *)
Theorem completed_run_returns (self : RequestNode) (s : state) (b : bundle)
  (s' : state) :
  completed self s b s' -> run self s = (Ok b, s').
Proof.
  intros [method url h p j mh mp specs w1 w2 w3 w4 w5 w6 w7 w8
          Hmethod Hurl Hpre Hmh Hheaders Hmp Hparams Hbody Hrequest Hpost
          Hspecs Htests Hhide Hlog Hflag].
  assert (P : prepared self s method url h p j mh mp w5)
    by (econstructor; eassumption).
  rewrite (run_prepared P).
  rewrite Hrequest, Hpost. unfold _run_tests.
  rewrite Hspecs, bind_lift_ok, Htests. simpl st_world. rewrite Hhide.
  destruct b as [r rs nf], s' as [w' l']. simpl in *. subst nf l'.
  unfold trace. rewrite <- !app_assoc. reflexivity.
Qed.

End Stops.

(** ** The calls of any run *)

Section Calls.

Context {C : Collaborators}.


End Calls.

(** ** Configuration values of the wrong kind *)

Section WrongKind.

Context {C : Collaborators}.

(** X7.  Headers or params that are not a mapping never reach the
    server: when the value under the node's headers key, or under its
    params key, is not a mapping (a key with nothing under it gives None),
    [run] raises from every state without having called the transport.
    For the headers the error is the TypeError of the unpacking, raised
    once the method, the URL and the first update have gone through: the
    run ends in the world that update left, after three calls. *)
Theorem unmappable_headers_or_params_never_sent (self : RequestNode) :
  (forall d, dict_get_default (spec self) HEADERS_KEY (VDict []) <> VDict d) \/
  (forall d, dict_get_default (spec self) PARAMS_KEY (VDict []) <> VDict d) ->
  forall s : state,
    (exists e, fst (run self s) = Raise e) /\
    count is_request (st_log (snd (run self s)))
    = count is_request (st_log s) /\
    ((forall d, dict_get_default (spec self) HEADERS_KEY (VDict []) <> VDict d) ->
     forall method url w1 w2,
       http_method self = Ok method ->
       vars_evaluate (joined_path self) (st_world s) = (Ok url, w1) ->
       vars_update (configured_vars self) [] false w1 = (Ok tt, w2) ->
       run self s
       = (Raise TypeError,
          {| st_world := w2;
             st_log := st_log s
                       ++ [EvEvaluate (joined_path self);
                           EvLogInfo method url;
                           EvUpdate (configured_vars self) [] false] |})).
Proof.
  intros H s.
  assert (N : forall method url h p j mh mp w5,
             ~ prepared self s method url h p j mh mp w5).
  { intros method url h p j mh mp w5 [w1 w2 w3 w4 _ _ _ Hmh _ Hmp _ _].
    apply unpack_onto_mapping in Hmh. destruct Hmh as (bh & Eh & _).
    apply unpack_onto_mapping in Hmp. destruct Hmp as (bp & Ep & _).
    destruct H as [H|H]; [exact (H bh Eh) | exact (H bp Ep)]. }
  split; [|split].
  - destruct (run_stops_or_prepares self s)
      as [(method & url & h & p & j & mh & mp & w5 & P)
         |(e & n & method & url & mh & mp & h & p & j & s1 & _ & F & _)].
    + destruct (N _ _ _ _ _ _ _ _ P).
    + exists e. now rewrite F.
  - destruct (run_stops_or_prepares self s)
      as [(method & url & h & p & j & mh & mp & w5 & P)
         |(e & n & method & url & mh & mp & h & p & j & s1 & B & F & L)].
    + destruct (N _ _ _ _ _ _ _ _ P).
    + rewrite F. simpl. rewrite L, count_app.
      rewrite no_request_among_first_six by exact B. lia.
  - intros Hh method url w1 w2 Hmethod Hurl Hpre.
    unfold run. rewrite Hmethod, bind_lift_ok.
    change (full_url_path self) with (evaluate (joined_path self)).
    change (dict_get_default (spec self) VARS_KEY (VDict []))
      with (configured_vars self).
    unfold evaluate at 1. rewrite bind_emit_call, Hurl.
    unfold logger_info. rewrite bind_emit. simpl st_world.
    unfold update at 1. rewrite bind_emit_call. simpl st_world. rewrite Hpre.
    unfold headers. cbv zeta. rewrite bind_assoc.
    destruct (dict_get_default (spec self) HEADERS_KEY (VDict [])) as [| | | | |d];
      try (simpl unpack_onto; rewrite bind_lift_raise; simpl;
           rewrite <- !app_assoc; reflexivity).
    destruct (Hh d eq_refl).
Qed.

(** X8.  Tests that cannot be iterated are noticed after the request has
    been sent: when the value under the tests key is not iterable (None,
    a number, a boolean), [run] raises from every state without having run
    a test or called the redaction; and once the transport has returned
    the response and the second update has bound it, the error of the
    iteration is what [run] raises, in the world that update left. *)
Theorem tests_not_iterable_never_redacted (self : RequestNode) (e0 : exn) :
  py_iter (dict_get_default (spec self) "tests" (VList [])) = Raise e0 ->
  forall s : state,
    (exists e, fst (run self s) = Raise e) /\
    count is_test (st_log (snd (run self s))) = count is_test (st_log s) /\
    count is_hide (st_log (snd (run self s))) = count is_hide (st_log s) /\
    (forall method url h p j mh mp w5 r w6 w7,
        prepared self s method url h p j mh mp w5 ->
        requests_request method url h p j false w5 = (Ok r, w6) ->
        vars_update (configured_vars self) [("response", r)] true w6
        = (Ok tt, w7) ->
        run self s
        = (Raise e0,
           {| st_world := w7;
              st_log := st_log s
                        ++ firstn 8 (calls self method url mh mp h p j
                                       (Some (r, []))) |})).
Proof.
  intros H s.
  assert (T : forall s8, _run_tests self s8 = (Raise e0, s8)).
  { intro s8. unfold _run_tests. rewrite H. apply bind_lift_raise. }
  assert (G : exists e s1 l,
             run self s = (Raise e, s1) /\ st_log s1 = st_log s ++ l /\
             count is_test l = 0 /\ count is_hide l = 0).
  { destruct (run_stops_or_prepares self s)
      as [(method & url & h & p & j & mh & mp & w5 & P)
         |(e & n & method & url & mh & mp & h & p & j & s1 & _ & F & L)].
    - rewrite (run_prepared P).
      destruct (requests_request method url h p j false w5) as [[r|e] w6].
      + destruct (vars_update (configured_vars self) [("response", r)] true w6)
          as [[u|e] w7].
        * rewrite T. do 3 eexists. repeat split.
        * do 3 eexists. repeat split.
      + do 3 eexists. repeat split.
    - exists e, s1. eexists. split; [exact F|]. split; [exact L|].
      split; apply count_firstn_none; reflexivity. }
  destruct G as (e & s1 & l & F & L & Zt & Zh).
  split; [exists e; now rewrite F|].
  split; [rewrite F; simpl; rewrite L, count_app; lia|].
  split; [rewrite F; simpl; rewrite L, count_app; lia|].
  intros method url h p j mh mp w5 r w6 w7 P R U.
  rewrite (run_prepared P), R, U, T. reflexivity.
Qed.

End WrongKind.

(** ** The tests *)

Section Tests.

Context {C : Collaborators}.

(** X9.  The results of a run that returns are the results of the
    declared tests, position by position: the tests are the elements the
    value under the tests key yields when iterated, they ran in that order
    from the world the second update left, each in the world the one
    before it left, the redaction got the world the last one left, and the
    i-th result is what the i-th test returned. *)
Theorem tests_results_follow_declared_tests (self : RequestNode) (s : state)
  (b : bundle) (s' : state) :
  run self s = (Ok b, s') ->
  exists specs w6 w7 w8,
    py_iter (dict_get_default (spec self) "tests" (VList [])) = Ok specs /\
    vars_update (configured_vars self) [("response", response b)] true w6
    = (Ok tt, w7) /\
    tested self w7 specs (tests_results b) w8 /\
    hide_sensitive_info (response b) w8 = (Ok tt, st_world s') /\
    List.length (tests_results b) = List.length specs /\
    forall i t, nth_error specs i = Some t ->
      exists r wi wi', nth_error (tests_results b) i = Some r /\
                       testing_node_run t self wi = (Ok r, wi').
Proof.
  intro H. apply run_completed in H.
  destruct H as [method url h p j mh mp specs w1 w2 w3 w4 w5 w6 w7 w8
                 _ _ _ _ _ _ _ _ _ Hpost Hspecs Htests Hhide _ _].
  specialize (Htests []). apply run_each_tested in Htests. simpl in Htests.
  destruct (tested_nth Htests) as [Hl Hn].
  exists specs, w6, w7, w8. repeat split; assumption.
Qed.

Lemma run_each_raise (self : RequestNode) (specs : list value) :
  forall (s : state) (e : exn) (s' : state),
    run_each self specs s = (Raise e, s') ->
    exists n t rs w,
      nth_error specs n = Some t /\
      tested self (st_world s) (firstn n specs) rs w /\
      testing_node_run t self w = (Raise e, st_world s') /\
      st_log s' = st_log s ++ map EvTest (firstn (S n) specs).
Proof.
  induction specs as [|t specs IH]; intros s e s' H.
  - discriminate.
  - rewrite run_each_cons in H.
    destruct (testing_node_run t self (st_world s)) as [[r|e1] w1] eqn:E.
    + destruct (run_each self specs _) as [[rs'|e2] s2] eqn:E2; [discriminate|].
      inversion H. subst e2 s2. clear H.
      destruct (IH _ _ _ E2) as (n & t' & rs & w & Hn & Ht & Hr & Hl).
      exists (S n), t', (r :: rs), w. simpl in Ht, Hl.
      split; [exact Hn|]. split; [econstructor; eassumption|].
      split; [exact Hr|].
      rewrite Hl, <- app_assoc. reflexivity.
    + inversion H. subst e1 s'. clear H.
      exists 0, t, [], (st_world s).
      split; [reflexivity|]. split; [constructor|].
      split; [exact E|]. simpl. destruct specs; reflexivity.
Qed.

(** X10.  [_run_tests] stops at the first test that raises.  When it
    raises, either the value under the tests key could not be iterated and
    nothing ran, or some test of the list raised that very error: the
    tests before it ran and returned, each in the world the one before it
    left, the tests after it were not started, and the state is the one
    the raising test left. *)
Theorem run_tests_stops_at_first_raise (self : RequestNode) (s : state)
  (e : exn) (s' : state) :
  _run_tests self s = (Raise e, s') ->
  (py_iter (dict_get_default (spec self) "tests" (VList [])) = Raise e /\
   s' = s) \/
  (exists specs n t rs w,
      py_iter (dict_get_default (spec self) "tests" (VList [])) = Ok specs /\
      nth_error specs n = Some t /\
      tested self (st_world s) (firstn n specs) rs w /\
      testing_node_run t self w = (Raise e, st_world s') /\
      st_log s' = st_log s ++ map EvTest (firstn (S n) specs)).
Proof.
  unfold _run_tests.
  destruct (py_iter (dict_get_default (spec self) "tests" (VList [])))
    as [specs|e0].
  - rewrite bind_lift_ok. intro H. right.
    destruct (run_each_raise _ _ _ H) as (n & t & rs & w & Hn & Ht & Hr & Hl).
    exists specs, n, t, rs, w. repeat split; assumption.
  - rewrite bind_lift_raise. intro H. inversion H. left. split; reflexivity.
Qed.

End Tests.

(** ** The merged mappings *)

Lemma keys_dict_set_in (k : string) (v : value) (d : dict) (k' : string) :
  In k' (keys (dict_set k v d)) <-> k' = k \/ In k' (keys d).
Proof.
  induction d as [|[k0 v0] d IH]; simpl.
  - intuition.
  - destruct (String.eqb k k0) eqn:E; simpl.
    + apply String.eqb_eq in E. subst k0. intuition.
    + rewrite IH. intuition.
Qed.

Lemma keys_dict_set_nodup (k : string) (v : value) (d : dict) :
  NoDup (keys d) -> NoDup (keys (dict_set k v d)).
Proof.
  induction d as [|[k0 v0] d IH]; simpl; intro N.
  - constructor; [intros []|constructor].
  - inversion N as [|x l N0 N1]. subst.
    destruct (String.eqb k k0) eqn:E; simpl.
    + apply String.eqb_eq in E. subst k0. now constructor.
    + apply String.eqb_neq in E. constructor; [|now apply IH].
      rewrite keys_dict_set_in. intros [I|I]; [now apply E | now apply N0].
Qed.

Lemma keys_dict_update (items : list (string * value)) :
  forall d : dict,
    NoDup (keys d) ->
    NoDup (keys (dict_update d items)) /\
    forall k, In k (keys (dict_update d items))
              <-> In k (keys d) \/ In k (keys items).
Proof.
  unfold dict_update.
  induction items as [|[k0 v0] items IH]; intros d N; simpl.
  - split; [exact N | intuition].
  - destruct (IH (dict_set k0 v0 d) (keys_dict_set_nodup k0 v0 d N)) as [N' I'].
    split; [exact N'|]. intro k. rewrite I', keys_dict_set_in. intuition.
Qed.

Lemma keys_dict_unpack2 (a b : dict) :
  NoDup (keys (dict_unpack2 a b)) /\
  forall k, In k (keys (dict_unpack2 a b)) <-> In k (keys a) \/ In k (keys b).
Proof.
  unfold dict_unpack2, py_dict.
  destruct (keys_dict_update a [] (NoDup_nil string)) as [Na Ia].
  destruct (keys_dict_update b _ Na) as [Nb Ib].
  split; [exact Nb|]. intro k. rewrite Ib, Ia. simpl. intuition.
Qed.

(** X11.  What the evaluator is given for the headers, and for the
    params, is a mapping proper: whenever [headers] (or [params]) returns,
    the node's own value is a mapping, and the merged mapping handed to
    the evaluator in the one call holds each name of the endpoint's
    mapping and each name of the node's mapping, no other name, and no
    name twice. *)
Theorem merged_names_are_the_union
  {C : Collaborators} (self : RequestNode) (s : state) :
  (forall h s', headers self s = (Ok h, s') ->
     exists own mh,
       dict_get_default (spec self) HEADERS_KEY (VDict []) = VDict own /\
       vars_evaluate (VDict mh) (st_world s) = (Ok h, st_world s') /\
       st_log s' = st_log s ++ [EvEvaluate (VDict mh)] /\
       NoDup (keys mh) /\
       forall k, In k (keys mh)
                 <-> In k (keys (ep_headers (endpoint self))) \/ In k (keys own)) /\
  (forall p s', params self s = (Ok p, s') ->
     exists own mp,
       dict_get_default (spec self) PARAMS_KEY (VDict []) = VDict own /\
       vars_evaluate (VDict mp) (st_world s) = (Ok p, st_world s') /\
       st_log s' = st_log s ++ [EvEvaluate (VDict mp)] /\
       NoDup (keys mp) /\
       forall k, In k (keys mp)
                 <-> In k (keys (ep_params (endpoint self))) \/ In k (keys own)).
Proof.
  split.
  - intros h s' H. apply headers_ok in H. destruct H as (mh & U & E & L).
    apply unpack_onto_mapping in U. destruct U as (own & Ev & ->).
    exists own, (dict_unpack2 (ep_headers (endpoint self)) own).
    destruct (keys_dict_unpack2 (ep_headers (endpoint self)) own) as [N I].
    repeat split; try assumption; apply I.
  - intros p s' H. apply params_ok in H. destruct H as (mp & U & E & L).
    apply unpack_onto_mapping in U. destruct U as (own & Ev & ->).
    exists own, (dict_unpack2 (ep_params (endpoint self)) own).
    destruct (keys_dict_unpack2 (ep_params (endpoint self)) own) as [N I].
    repeat split; try assumption; apply I.
Qed.

(** ** The method, the name and the printed form *)

(** X12.  [http_method] returns nothing but an allowed method: whatever
    the configuration holds, a method it returns is one of GET, POST, PUT,
    PATCH and DELETE; an error it raises is either
    HTTPMethodNotAllowedError with a string that is none of the five, or
    AttributeError; and a value under the method key that is not a string
    (None for a key with nothing under it, a number, a list) raises
    AttributeError, as it has no [upper]. *)
Theorem http_method_range (self : RequestNode) :
  (forall m, http_method self = Ok m -> In m ALLOWED_HTTP_METHODS) /\
  (forall e, http_method self = Raise e ->
     e = AttributeError \/
     exists m, e = HTTPMethodNotAllowedError m ALLOWED_HTTP_METHODS /\
               ~ In m ALLOWED_HTTP_METHODS) /\
  (forall v, dict_get METHOD_KEY (spec self) = Some v ->
             (forall m, v <> VStr m) ->
             http_method self = Raise AttributeError).
Proof.
  unfold http_method, dict_get_default. split; [|split].
  - intro m.
    destruct (match dict_get METHOD_KEY (spec self) with
              | Some v => v | None => VStr "get" end); try discriminate.
    intro H. apply str_in_spec.
    destruct (str_in (upper s) ALLOWED_HTTP_METHODS) eqn:I; simpl in H;
      [|discriminate].
    inversion H. subst m. exact I.
  - intro e.
    destruct (match dict_get METHOD_KEY (spec self) with
              | Some v => v | None => VStr "get" end);
      try (intro H; inversion H; now left).
    intro H. right. exists (upper s).
    destruct (str_in (upper s) ALLOWED_HTTP_METHODS) eqn:I; simpl in H;
      [discriminate|].
    inversion H. split; [reflexivity | now apply str_in_false].
  - intros v G N. rewrite G.
    destruct v; try reflexivity. destruct (N s eq_refl).
Qed.

(** X13.  A node that construction accepted has a name: after
    [RequestNode(spec, endpoint)] has returned, [name] does not raise
    KeyError and is the value the configuration holds under the name key.
    (The key validation is the one modelled for the construction.) *)
Theorem name_of_validated_node (spec0 : dict) (endpoint0 : EndpointNode)
  (self : RequestNode) :
  RequestNode_init spec0 endpoint0 = Ok self ->
  spec self = spec0 /\ endpoint self = endpoint0 /\
  exists v, name self = Some v /\ dict_get NAME_KEY spec0 = Some v.
Proof.
  unfold RequestNode_init, _validate, validate_keys. simpl spec.
  destruct (filter (fun k => negb (str_in k ALLOWED_KEYS)) (keys spec0)
            ++ filter (fun k => negb (str_in k (keys spec0))) REQUIRED_KEYS)
    as [|k l] eqn:E; [|discriminate].
  intro H. inversion H. subst self. clear H.
  split; [reflexivity|]. split; [reflexivity|].
  apply app_eq_nil in E. destruct E as [_ E].
  rewrite filter_nil_iff in E.
  specialize (E NAME_KEY (or_introl eq_refl)).
  apply negb_false_iff, str_in_spec in E.
  unfold name, __getitem__. simpl spec.
  destruct (dict_get NAME_KEY spec0) as [v|] eqn:G.
  - now exists v.
  - apply dict_get_none_keys in G. destruct (G E).
Qed.

(** X14.  The printed form of a node shows the URL its run requests:
    from the same state, when [repr] returns and [run] returns, the text
    is the class name and the [str] of the evaluated URL between angle
    brackets, and that URL is the one of the transport call of the run.
    Printing a node is a call on the evaluator, recorded as such. *)
Theorem repr_shows_requested_url
  {C : Collaborators} (self : RequestNode) (s : state) (text : string)
  (s1 : state) (b : bundle) (s' : state) :
  __repr__ self s = (Ok text, s1) ->
  run self s = (Ok b, s') ->
  exists method url h p j,
    text = ("<RequestNode " ++ py_str url ++ ">")%string /\
    vars_evaluate (joined_path self) (st_world s) = (Ok url, st_world s1) /\
    st_log s1 = st_log s ++ [EvEvaluate (joined_path self)] /\
    In (EvRequest method url h p j false) (st_log s').
Proof.
  intros R H. unfold __repr__ in R.
  apply bind_ok in R. destruct R as (url & s2 & U & R).
  unfold ret in R. inversion R. subst s2. clear R.
  apply full_url_path_ok in U. destruct U as [U L].
  apply run_completed in H.
  destruct H as [method url' h p j mh mp specs w1 w2 w3 w4 w5 w6 w7 w8
                 _ Hurl _ _ _ _ _ _ _ _ _ _ _ Hlog _].
  rewrite U in Hurl. inversion Hurl. subst url'.
  exists method, url, h, p, j.
  split; [reflexivity|]. split; [exact U|]. split; [exact L|].
  rewrite Hlog. apply in_or_app. right. unfold trace.
  apply in_or_app. left. simpl. do 6 right. now left.
Qed.

(** ** The further properties on the scenarios *)

(** A witness of X1: the method fetch. *)
Lemma run_rejects_method_first_witness :
  http_method Cases.fetch
  = Raise (HTTPMethodNotAllowedError "FETCH" ALLOWED_HTTP_METHODS) /\
  @run Demo.C Cases.fetch Demo.s0
  = (Raise (HTTPMethodNotAllowedError "FETCH" ALLOWED_HTTP_METHODS), Demo.s0).
Proof.
  split; [reflexivity|].
  apply (@run_rejects_method_first Demo.C Cases.fetch). reflexivity.
Defined.

(** A witness of X2: the node of the scenario against a server that
    cannot be reached. *)
Lemma transport_error_propagates_witness :
  @run Cases.C_down Demo.node Cases.down0
  = (Raise (TransportError "connection refused"),
     @Build_state Cases.C_down Cases.first_update_only
       [EvEvaluate (VStr "/api/users");
        EvLogInfo "GET" (VStr "/api/users");
        EvUpdate Demo.configured [] false;
        EvEvaluate (VDict [("Accept", VStr "json"); ("X-Token", VStr "${token}")]);
        EvEvaluate (VDict [("page", VInt 1)]);
        EvEvaluate VNone;
        EvRequest "GET" (VStr "/api/users") Demo.sent_headers
          (VDict [("page", VInt 1)]) VNone false]).
Proof.
  assert (P : @prepared Cases.C_down Demo.node Cases.down0 "GET"
                (VStr "/api/users") Demo.sent_headers
                (VDict [("page", VInt 1)]) VNone
                [("Accept", VStr "json"); ("X-Token", VStr "${token}")]
                [("page", VInt 1)] Cases.first_update_only)
    by (econstructor; reflexivity).
  exact (proj1 (@transport_error_propagates Cases.C_down Demo.node Cases.down0
                  "GET" (VStr "/api/users") Demo.sent_headers
                  (VDict [("page", VInt 1)]) VNone _ _
                  Cases.first_update_only Cases.first_update_only
                  (TransportError "connection refused") P eq_refl)).
Defined.

(** A witness of X3: the variable user_id refers to a field the
    response does not have. *)
Lemma second_update_error_skips_tests_witness :
  @run Demo.C Cases.missing_field Demo.s0
  = (Raise (TemplateResolutionError "response.body.missing"),
     @Build_state Demo.C Cases.bound_only
       [EvEvaluate (VStr "/api/");
        EvLogInfo "GET" (VStr "/api/");
        EvUpdate (VDict [("user_id", VStr "${response.body.missing}")]) [] false;
        EvEvaluate (VDict [("Accept", VStr "json"); ("X-Token", VStr "inherited")]);
        EvEvaluate (VDict [("page", VInt 1)]);
        EvEvaluate VNone;
        EvRequest "GET" (VStr "/api/")
          (VDict [("Accept", VStr "json"); ("X-Token", VStr "inherited")])
          (VDict [("page", VInt 1)]) VNone false;
        @EvUpdate Demo.C (VDict [("user_id", VStr "${response.body.missing}")])
          [("response", 0)] true]).
Proof.
  assert (P : @prepared Demo.C Cases.missing_field Demo.s0 "GET"
                (VStr "/api/")
                (VDict [("Accept", VStr "json"); ("X-Token", VStr "inherited")])
                (VDict [("page", VInt 1)]) VNone
                [("Accept", VStr "json"); ("X-Token", VStr "inherited")]
                [("page", VInt 1)]
                {| Reference.registry :=
                     [("user_id",
                       Reference.Bound (VStr "${response.body.missing}"))];
                   Reference.heap := [] |})
    by (econstructor; reflexivity).
  exact (proj1 (@second_update_error_skips_tests Demo.C Cases.missing_field
                  Demo.s0 "GET" (VStr "/api/") _ _ VNone _ _ _
                  {| Reference.registry :=
                       [("user_id",
                         Reference.Bound (VStr "${response.body.missing}"))];
                     Reference.heap := Reference.heap Cases.bound_only |}
                  Cases.bound_only 0
                  (TemplateResolutionError "response.body.missing")
                  P eq_refl eq_refl)).
Defined.

(** A witness of X4: the second test has no assertion; the response is
    left as the server sent it. *)
Lemma raising_tests_skip_redaction_witness :
  @run Demo.C Cases.broken_test Demo.s0
  = (Raise (ValidationError ["name"; "assert"] "test"),
     @Build_state Demo.C Cases.unredacted
       [EvEvaluate (VStr "/api/");
        EvLogInfo "GET" (VStr "/api/");
        EvUpdate (VDict []) [] false;
        EvEvaluate (VDict [("Accept", VStr "json"); ("X-Token", VStr "inherited")]);
        EvEvaluate (VDict [("page", VInt 1)]);
        EvEvaluate VNone;
        EvRequest "GET" (VStr "/api/")
          (VDict [("Accept", VStr "json"); ("X-Token", VStr "inherited")])
          (VDict [("page", VInt 1)]) VNone false;
        @EvUpdate Demo.C (VDict []) [("response", 0)] true;
        EvTest Demo.auth_test;
        EvTest Cases.no_assertion]) /\
  Reference.lookup Cases.unredacted "response.headers.Authorization"
  = Ok (VStr "secret123").
Proof.
  split; [|reflexivity].
  assert (P : @prepared Demo.C Cases.broken_test Demo.s0 "GET"
                (VStr "/api/")
                (VDict [("Accept", VStr "json"); ("X-Token", VStr "inherited")])
                (VDict [("page", VInt 1)]) VNone
                [("Accept", VStr "json"); ("X-Token", VStr "inherited")]
                [("page", VInt 1)] Reference.empty_world)
    by (econstructor; reflexivity).
  exact (proj1 (@raising_tests_skip_redaction Demo.C Cases.broken_test Demo.s0
                  "GET" (VStr "/api/") _ _ VNone _ _ Reference.empty_world
                  {| Reference.registry := [];
                     Reference.heap := Reference.heap Cases.unredacted |}
                  Cases.unredacted 0
                  (ValidationError ["name"; "assert"] "test") _
                  P eq_refl eq_refl eq_refl)).
Defined.

(** A witness of X5: the steps of the node without a method, vars or
    tests. *)
Lemma completed_run_returns_witness :
  @run Demo.C Demo.plain Demo.s0 = (Ok Demo.plain_result, Demo.plain_end).
Proof.
  apply (@completed_run_returns Demo.C).
  apply (@Completed Demo.C Demo.plain Demo.s0 Demo.plain_result Demo.plain_end
           "GET" (VStr "/api/")
           (VDict [("Accept", VStr "json"); ("X-Token", VStr "inherited")])
           (VDict [("page", VInt 1)]) VNone
           [("Accept", VStr "json"); ("X-Token", VStr "inherited")]
           [("page", VInt 1)] []
           Reference.empty_world Reference.empty_world Reference.empty_world
           Reference.empty_world Reference.empty_world
           {| Reference.registry := [];
              Reference.heap := Reference.heap Cases.unredacted |}
           Cases.unredacted Cases.unredacted);
    try reflexivity.
  intro log. simpl. rewrite app_nil_r. reflexivity.
Defined.

(** A witness of X7: a headers key with nothing under it. *)
Lemma unmappable_headers_or_params_never_sent_witness :
  dict_get_default (spec Cases.bare_headers) HEADERS_KEY (VDict []) = VNone /\
  @run Demo.C Cases.bare_headers Demo.s0
  = (Raise TypeError,
     @Build_state Demo.C Reference.empty_world
       [EvEvaluate (VStr "/api/");
        EvLogInfo "GET" (VStr "/api/");
        EvUpdate (VDict []) [] false]).
Proof.
  split; [reflexivity|].
  assert (H : forall d,
             dict_get_default (spec Cases.bare_headers) HEADERS_KEY (VDict [])
             <> VDict d)
    by (intros d E; discriminate E).
  exact (proj2 (proj2 (@unmappable_headers_or_params_never_sent Demo.C
                         Cases.bare_headers (or_introl H) Demo.s0))
           H "GET" (VStr "/api/") Reference.empty_world Reference.empty_world
           eq_refl eq_refl eq_refl).
Defined.

(** A witness of X8: a tests key with nothing under it; the request has
    gone out and the response stays as the server sent it. *)
Lemma tests_not_iterable_never_redacted_witness :
  py_iter (dict_get_default (spec Cases.bare_tests) "tests" (VList []))
  = Raise TypeError /\
  @run Demo.C Cases.bare_tests Demo.s0
  = (Raise TypeError,
     @Build_state Demo.C Cases.unredacted
       [EvEvaluate (VStr "/api/");
        EvLogInfo "GET" (VStr "/api/");
        EvUpdate (VDict []) [] false;
        EvEvaluate (VDict [("Accept", VStr "json"); ("X-Token", VStr "inherited")]);
        EvEvaluate (VDict [("page", VInt 1)]);
        EvEvaluate VNone;
        EvRequest "GET" (VStr "/api/")
          (VDict [("Accept", VStr "json"); ("X-Token", VStr "inherited")])
          (VDict [("page", VInt 1)]) VNone false;
        @EvUpdate Demo.C (VDict []) [("response", 0)] true]).
Proof.
  split; [reflexivity|].
  assert (P : @prepared Demo.C Cases.bare_tests Demo.s0 "GET"
                (VStr "/api/")
                (VDict [("Accept", VStr "json"); ("X-Token", VStr "inherited")])
                (VDict [("page", VInt 1)]) VNone
                [("Accept", VStr "json"); ("X-Token", VStr "inherited")]
                [("page", VInt 1)] Reference.empty_world)
    by (econstructor; reflexivity).
  exact (proj2 (proj2 (proj2 (@tests_not_iterable_never_redacted Demo.C
                                Cases.bare_tests TypeError eq_refl Demo.s0)))
           "GET" (VStr "/api/") _ _ VNone _ _ Reference.empty_world 0
           {| Reference.registry := [];
              Reference.heap := Reference.heap Cases.unredacted |}
           Cases.unredacted P eq_refl eq_refl).
Defined.

(** A witness of X9: the two tests of the scenario and their two
    results. *)
Lemma tests_results_follow_declared_tests_witness :
  exists specs : list value,
    py_iter (dict_get_default (spec Demo.node) "tests" (VList [])) = Ok specs /\
    List.length (tests_results Demo.result0) = List.length specs /\
    forall i t, nth_error specs i = Some t ->
      exists r wi wi', nth_error (tests_results Demo.result0) i = Some r /\
                       Reference.ref_test t Demo.node wi = (Ok r, wi').
Proof.
  destruct (@tests_results_follow_declared_tests Demo.C Demo.node Demo.s0
              Demo.result0 Demo.s_end eq_refl)
    as (specs & w6 & w7 & w8 & S & _ & _ & _ & L & N).
  exists specs. split; [exact S|]. split; [exact L | exact N].
Defined.

(** A witness of X10: of three tests the second raises; the first ran,
    the third was not started. *)
Lemma run_tests_stops_at_first_raise_witness :
  exists (specs : list value) (n : nat) (t : value) (rs : list test_result)
         (w : Reference.ref_world),
    py_iter (dict_get_default (spec Cases.broken_test) "tests" (VList []))
    = Ok specs /\
    nth_error specs n = Some t /\
    @tested Demo.C Cases.broken_test Cases.unredacted (firstn n specs) rs w /\
    Reference.ref_test t Cases.broken_test w
    = (Raise (ValidationError ["name"; "assert"] "test"), Cases.unredacted) /\
    [EvTest Demo.auth_test; @EvTest Demo.C Cases.no_assertion]
    = [] ++ map EvTest (firstn (S n) specs).
Proof.
  destruct (@run_tests_stops_at_first_raise Demo.C Cases.broken_test
              (@Build_state Demo.C Cases.unredacted [])
              (ValidationError ["name"; "assert"] "test")
              (@Build_state Demo.C Cases.unredacted
                 [EvTest Demo.auth_test; EvTest Cases.no_assertion])
              eq_refl)
    as [[E _]|X]; [discriminate E | exact X].
Defined.

(** A witness of X13: the node of the scenario. *)
Lemma name_of_validated_node_witness :
  RequestNode_init (spec Demo.node) Demo.api = Ok Demo.node /\
  name Demo.node = Some (VStr "list users").
Proof.
  split; [reflexivity|].
  destruct (@name_of_validated_node (spec Demo.node) Demo.api Demo.node eq_refl)
    as (_ & _ & v & N & G).
  rewrite N, <- G. reflexivity.
Defined.

(** A witness of X14: the printed form of the node of the scenario. *)
Lemma repr_shows_requested_url_witness :
  @__repr__ Demo.C Demo.node Demo.s0
  = (Ok "<RequestNode /api/users>",
     @Build_state Demo.C Reference.empty_world [EvEvaluate (VStr "/api/users")]) /\
  exists (method : string) (url h p j : value),
    "<RequestNode /api/users>" = ("<RequestNode " ++ py_str url ++ ">")%string /\
    In (EvRequest method url h p j false) Demo.log_end.
Proof.
  split; [reflexivity|].
  destruct (@repr_shows_requested_url Demo.C Demo.node Demo.s0
              "<RequestNode /api/users>"
              (@Build_state Demo.C Reference.empty_world
                 [EvEvaluate (VStr "/api/users")])
              Demo.result0 Demo.s_end eq_refl eq_refl)
    as (method & url & h & p & j & T & _ & _ & I).
  exists method, url, h, p, j. split; [exact T | exact I].
Defined.

(** The merged headers of the scenario: the endpoint's two names, of
    which the node's own X-Token takes the value, each once. *)
Example demo_merged_headers :
  dict_unpack2 (ep_headers Demo.api) [("X-Token", VStr "${token}")]
  = [("Accept", VStr "json"); ("X-Token", VStr "${token}")] /\
  http_method {| spec := [("name", VStr "n"); ("method", VNone)];
                 endpoint := Demo.api |}
  = Raise AttributeError.
Proof. split; reflexivity. Qed.
